(** * Cardiovascular risk agent: rule engine, inference adapter and handler

    A shallow embedding of [app.py].  Python [float]s are IEEE binary64
    values, embedded as Rocq's primitive [float]; the prediction of the
    Keras model is a [numpy.float32], an IEEE binary32 value in the
    representation of [SpecFloat]; Python [int]s are [Z]; the dictionaries
    returned by the rules are records; the JSON payload is a tree whose
    objects are finite maps keyed by strings. *)

From Stdlib Require Import ZArith Lia Bool List QArith Qpower.
From Stdlib Require Import Floats.
From stdpp Require Import base strings gmap.

Local Open Scope Z_scope.

(** ** Exceptions

    The handler tells [KeyError] apart from every other exception; the
    other constructors are the exceptions the builtins used here raise.
    [OtherError] stands for whatever an external collaborator raises. *)

Inductive exn : Type :=
| KeyError (k : string)
| TypeError
| ValueError
| OverflowError
| ZeroDivisionError
| OtherError (msg : string).

Definition result (A : Type) : Type := (exn + A)%type.

Definition ret {A} (a : A) : result A := inr a.
Definition raise {A} (e : exn) : result A := inl e.
Definition bind {A B} (c : result A) (k : A -> result B) : result B :=
  match c with
  | inl e => inl e
  | inr a => k a
  end.

Notation "'let*' x ':=' c 'in' k" := (bind c (fun x => k))
  (at level 10, x name, c at level 200, k at level 200, only parsing).

(** ** JSON values, as [request.json] delivers them *)

#[local] Set Warnings "-register-all".

Inductive json : Type :=
| JNull
| JBool (b : bool)
| JInt (n : Z)
| JFloat (x : float)
| JStr (s : string)
| JArr (l : list json)
| JObj (m : gmap string json).

(** ** Python builtins used by the program *)

(** [x >= y] and [x < y] on floats.  Python compares a float with an [int]
    literal exactly; the integer thresholds of the rules are binary64
    values, so this is the float comparison. *)
Definition fge (x y : float) : bool := PrimFloat.leb y x.
Definition flt (x y : float) : bool := PrimFloat.ltb x y.

(** [float(n)] for an [int]: round to nearest even, [OverflowError] when
    the result does not fit. *)
Definition float_of_Z (n : Z) : result float :=
  let x := SF2Prim (binary_normalize prec emax n 0 false) in
  if is_infinity x then raise OverflowError else ret x.

(** [int(x)] for a floating-point number, given by the value it holds:
    truncation towards zero, [ValueError] for NaN and [OverflowError] for
    the infinities. *)
Definition int_of_spec (x : spec_float) : result Z :=
  match x with
  | S754_nan => raise ValueError
  | S754_infinity _ => raise OverflowError
  | S754_zero _ => ret 0
  | S754_finite s m e => ret (cond_Zopp s (Z.shiftl (Zpos m) e))
  end.

(** [x / y] on floats. *)
Definition truediv (x y : float) : result float :=
  if PrimFloat.eqb y 0 then raise ZeroDivisionError else ret (x / y)%float.

(** Truth value of a JSON value, as [if v:] computes it. *)
Definition truthy (v : json) : bool :=
  match v with
  | JNull => false
  | JBool b => b
  | JInt n => negb (n =? 0)
  | JFloat x => negb (PrimFloat.eqb x 0)
  | JStr s => negb (String.eqb s "")
  | JArr l => match l with [] => false | _ => true end
  | JObj m => negb (bool_decide (m = ∅))
  end.

(** [v == s] for a string literal [s]. *)
Definition eq_str (v : json) (s : string) : bool :=
  match v with
  | JStr t => String.eqb t s
  | _ => false
  end.

(** [v in [s1, ..., sn]] for string literals. *)
Definition in_strs (v : json) (l : list string) : bool := existsb (eq_str v) l.

(** [data[k]] *)
Definition getitem (data : json) (k : string) : result json :=
  match data with
  | JObj m => match m !! k with
              | Some v => ret v
              | None => raise (KeyError k)
              end
  | _ => raise TypeError
  end.

(** [max(x, *rest, key=key)] on a non-empty sequence: the first maximal
    element. *)
Fixpoint max_from {A} (key : A -> Z) (best : A) (l : list A) : A :=
  match l with
  | [] => best
  | x :: t => max_from key (if key best <? key x then x else best) t
  end.

(** ** Risk assessments

    Every rule returns a dictionary [{"probabilidad": p, "nivel": n}]. *)

Record riesgo : Type := Riesgo { probabilidad : Z; nivel : string }.

#[local] Set Warnings "-inexact-float".

(** ** NumPy scalars

    [model.predict(...)[0][0]] is a [numpy.float32].  With the promotion
    rules of NumPy 2, a Python [int] or [float] operand adapts to the type
    of the NumPy scalar: [raw * 100] is the binary32 product of [raw] and
    the binary32 value of 100, and [raw >= 0.70] compares [raw] with the
    binary32 value nearest to the binary64 literal.  (NumPy 1 promoted
    both expressions to binary64 instead; that behaviour is not the one
    embedded here.)  A binary32 value is a [spec_float] that is valid for
    24 bits of precision and the exponent bound 128. *)

Module Numpy.

Definition float32 : Type := spec_float.

Definition es_float32 (x : float32) : bool := SpecFloat.valid_binary 24 128 x.

(** A Python [float] operand, converted to binary32: round to nearest
    even. *)
Definition de_float (x : float) : float32 :=
  match Prim2SF x with
  | S754_finite s m e => binary_round 24 128 s m e
  | y => y
  end.

(** A Python [int] operand, converted to binary32. *)
Definition de_int (n : Z) : float32 := binary_normalize 24 128 n 0 false.

(** [x * n] for a [float32] and a Python [int]. *)
Definition mul_int (x : float32) (n : Z) : float32 :=
  SFmul 24 128 x (de_int n).

(** [x >= y] for a [float32] and a Python [float]. *)
Definition ge_float (x : float32) (y : float) : bool :=
  SFleb (de_float y) x.

(** A binary32 value between 0 and 1. *)
Definition en_unidad (x : float32) : bool :=
  es_float32 x && SFleb (S754_zero false) x && SFleb x (de_int 1).

End Numpy.

Module Rules.

(** [calcular_hipertension(sys_bp, dia_bp)] *)
Definition calcular_hipertension (sys_bp dia_bp : float) : riesgo :=
  if fge sys_bp 140 || fge dia_bp 90 then Riesgo 92 "Alto"
  else if fge sys_bp 130 || fge dia_bp 80 then Riesgo 75 "Moderado"
  else if fge sys_bp 120 && flt dia_bp 80 then Riesgo 45 "Moderado"
  else Riesgo 10 "Bajo".

(** [calcular_diabetes(glucosa)] *)
Definition calcular_diabetes (glucosa : float) : riesgo :=
  if fge glucosa 126 then Riesgo 95 "Alto"
  else if fge glucosa 100 then Riesgo 45 "Moderado"
  else Riesgo 10 "Bajo".

(** The list [riesgos] that [calcular_dislipidemia] builds with [append]. *)
Definition riesgos_dislipidemia (ldl hdl total : float) : list riesgo :=
  let riesgos := [] in
  let riesgos :=
    if fge ldl 160 then riesgos ++ [Riesgo 85 "Alto"]
    else if fge ldl 130 then riesgos ++ [Riesgo 60 "Moderado"]
    else riesgos in
  let riesgos :=
    if flt hdl 40 then riesgos ++ [Riesgo 90 "Alto"] else riesgos in
  let riesgos :=
    if fge total 240 then riesgos ++ [Riesgo 80 "Alto"]
    else if fge total 200 then riesgos ++ [Riesgo 50 "Moderado"]
    else riesgos in
  riesgos.

(** [calcular_dislipidemia(ldl, hdl, total)] *)
Definition calcular_dislipidemia (ldl hdl total : float) : riesgo :=
  match riesgos_dislipidemia ldl hdl total with
  | [] => Riesgo 10 "Bajo"
  | r :: rs => max_from probabilidad r rs
  end.

(** The counter [puntos_riesgo] of [calcular_riesgo_estilo_vida]. *)
Definition puntos_riesgo (fumador actividad alcohol : json) : Z :=
  let puntos := 0 in
  let puntos := if truthy fumador then puntos + 1 else puntos in
  let puntos := if eq_str actividad "Sedentario" then puntos + 1 else puntos in
  let puntos :=
    if in_strs alcohol ["Moderado"; "Alto"] then puntos + 1 else puntos in
  puntos.

(** [calcular_riesgo_estilo_vida(fumador, actividad, alcohol)] *)
Definition calcular_riesgo_estilo_vida (fumador actividad alcohol : json)
  : riesgo :=
  let puntos := puntos_riesgo fumador actividad alcohol in
  if puntos =? 3 then Riesgo 90 "Alto"
  else if puntos =? 2 then Riesgo 60 "Moderado"
  else if puntos =? 1 then Riesgo 30 "Bajo"
  else Riesgo 10 "Bajo".

(** [nivel_riesgo_coronario(prob_raw)], on the [numpy.float32] the handler
    passes. *)
Definition nivel_riesgo_coronario (prob_raw : Numpy.float32) : string :=
  if Numpy.ge_float prob_raw 0.70 then "Alto"
  else if Numpy.ge_float prob_raw 0.30 then "Moderado"
  else "Bajo".

End Rules.

(** ** The Python runtime and the external collaborators

    [float_of_str] is [float(s)] on a string, [None] when it raises
    [ValueError]; [float_pow] is [x ** y] on floats, [None] when it raises
    [OverflowError], the one exception it has for the exponent 2;
    [repr_str] is [repr(s)] on a string.  The three belong to the
    interpreter.  [scaler] and [model] are the two globals filled by
    [load_resources]: [None] until loaded, then an object whose
    [transform], respectively [predict(...)[0][0]], is an opaque function
    that may raise.  A prediction is a [numpy.float32]. *)

Record entorno : Type := Entorno {
  float_of_str : string -> option float;
  float_pow : float -> float -> option float;
  repr_str : string -> string;
  scaler : option (list float -> result (list float));
  model : option (list float -> result Numpy.float32)
}.

(** [float(v)] on a JSON value. *)
Definition py_float (E : entorno) (v : json) : result float :=
  match v with
  | JNull => raise TypeError
  | JBool b => ret (if b then 1%float else 0%float)
  | JInt n => float_of_Z n
  | JFloat x => ret x
  | JStr s => match float_of_str E s with
              | Some x => ret x
              | None => raise ValueError
              end
  | JArr _ => raise TypeError
  | JObj _ => raise TypeError
  end.

(** [x ** y] *)
Definition pow (E : entorno) (x y : float) : result float :=
  match float_pow E x y with
  | Some z => ret z
  | None => raise OverflowError
  end.

(** [float(data[k])] *)
Definition float_field (E : entorno) (data : json) (k : string)
  : result float :=
  let* v := getitem data k in py_float E v.

(** ** The evaluation report *)

Record entrada : Type := Entrada {
  enfermedad : string;
  probabilidad_enfermedad : Z;
  nivel_enfermedad : string
}.

Record informe : Type := Informe {
  riesgo_general : Z;
  modelo_version : string;
  probabilidades_enfermedades : list entrada
}.

(** What [evaluate_risk] answers: the report with status 200, or one of the
    three error bodies.  [MissingField msg] is [{"error": msg}] with status
    400, [InternalError e] is the body built from [str(e)] with status 500. *)
Inductive response : Type :=
| Success (r : informe)
| ModelUnavailable
| MissingField (msg : string)
| InternalError (e : exn).

(** A character that [repr] leaves as it is between single quotes:
    printable ASCII other than the single quote and the backslash. *)
Definition caracter_simple (c : Ascii.ascii) : bool :=
  let n := Z.of_N (Ascii.N_of_ascii c) in
  (32 <=? n) && (n <? 127) && negb (n =? 39) && negb (n =? 92).

Fixpoint clave_simple (s : string) : bool :=
  match s with
  | EmptyString => true
  | String c t => caracter_simple c && clave_simple t
  end.

(** [str(e)] for a [KeyError] whose argument is the key [k]: [repr(k)],
    which is [k] between single quotes when [k] needs no escaping, and the
    interpreter's escaped form otherwise. *)
Definition str_KeyError (E : entorno) (k : string) : string :=
  if clave_simple k then "'" +:+ k +:+ "'" else repr_str E k.

Definition falta_el_campo (E : entorno) (k : string) : string :=
  "Falta el campo en los datos: " +:+ str_KeyError E k.

Module Handler.

(** The body of the [try] block of [evaluate_risk]. *)
Definition evaluate_body (E : entorno)
    (transform : list float -> result (list float))
    (predict : list float -> result Numpy.float32)
    (data : json) : result informe :=
  let* altura_cm := float_field E data "altura_cm" in
  let* altura_m := truediv altura_cm 100 in
  let* peso_kg := float_field E data "peso_kg" in
  let* altura_m2 := pow E altura_m 2 in
  let* bmi := truediv peso_kg altura_m2 in
  let* edad := float_field E data "edad" in
  let* sexo := getitem data "sexo" in
  let* presion_sistolica := float_field E data "presion_sistolica" in
  let* presion_diastolica := float_field E data "presion_diastolica" in
  let* colesterol_total := float_field E data "colesterol_total" in
  let* glucosa := float_field E data "glucosa" in
  let* fumador := getitem data "fumador" in
  let input_data :=
    [ edad;
      if eq_str sexo "Masculino" then 1%float else 0%float;
      presion_sistolica;
      presion_diastolica;
      colesterol_total;
      glucosa;
      bmi;
      if truthy fumador then 1%float else 0%float ] in
  let* input_scaled := transform input_data in
  let* prob_coronaria_raw := predict input_scaled in
  let* prob_coronaria_pct :=
    int_of_spec (Numpy.mul_int prob_coronaria_raw 100) in
  let* sys_bp := float_field E data "presion_sistolica" in
  let* dia_bp := float_field E data "presion_diastolica" in
  let prob_hipertension_obj := Rules.calcular_hipertension sys_bp dia_bp in
  let* glucosa' := float_field E data "glucosa" in
  let prob_diabetes_obj := Rules.calcular_diabetes glucosa' in
  let* ldl := float_field E data "colesterol_ldl" in
  let* hdl := float_field E data "colesterol_hdl" in
  let* total := float_field E data "colesterol_total" in
  let prob_dislipidemia_obj := Rules.calcular_dislipidemia ldl hdl total in
  let* fumador' := getitem data "fumador" in
  let* actividad := getitem data "actividad_fisica" in
  let* alcohol := getitem data "consumo_alcohol" in
  let prob_estilo_vida_obj :=
    Rules.calcular_riesgo_estilo_vida fumador' actividad alcohol in
  let riesgo_general_pct :=
    max_from id prob_coronaria_pct
      [ probabilidad prob_hipertension_obj;
        probabilidad prob_diabetes_obj;
        probabilidad prob_dislipidemia_obj;
        probabilidad prob_estilo_vida_obj ] in
  ret (Informe riesgo_general_pct "1.2-hibrido-avanzado"
    [ Entrada "Coronary Artery Disease" prob_coronaria_pct
        (Rules.nivel_riesgo_coronario prob_coronaria_raw);
      Entrada "Hypertension" (probabilidad prob_hipertension_obj)
        (nivel prob_hipertension_obj);
      Entrada "Type 2 Diabetes" (probabilidad prob_diabetes_obj)
        (nivel prob_diabetes_obj);
      Entrada "Dislipidemia (Colesterol)" (probabilidad prob_dislipidemia_obj)
        (nivel prob_dislipidemia_obj);
      Entrada "Riesgo por Estilo de Vida" (probabilidad prob_estilo_vida_obj)
        (nivel prob_estilo_vida_obj) ]).

(** [evaluate_risk()], with the request payload as its argument. *)
Definition evaluate_risk (E : entorno) (data : json) : response :=
  match model E, scaler E with
  | Some predict, Some transform =>
      match evaluate_body E transform predict data with
      | inr r => Success r
      | inl (KeyError k) => MissingField (falta_el_campo E k)
      | inl e => InternalError e
      end
  | _, _ => ModelUnavailable
  end.

End Handler.

(** ** What the specification says, in its own words *)

Module Spec.

(** The three sub-checks of the dyslipidemia rule; [None] when a sub-check
    does not trigger. *)
Definition sub_ldl (ldl : float) : option riesgo :=
  if fge ldl 160 then Some (Riesgo 85 "Alto")
  else if fge ldl 130 then Some (Riesgo 60 "Moderado")
  else None.

Definition sub_hdl (hdl : float) : option riesgo :=
  if flt hdl 40 then Some (Riesgo 90 "Alto") else None.

Definition sub_total (total : float) : option riesgo :=
  if fge total 240 then Some (Riesgo 80 "Alto")
  else if fge total 200 then Some (Riesgo 50 "Moderado")
  else None.

Definition triggered (ldl hdl total : float) : list riesgo :=
  omap id [sub_ldl ldl; sub_hdl hdl; sub_total total].

(** Lifestyle points and the score table. *)
Definition punto (b : bool) : Z := if b then 1 else 0.

Definition puntos (fumador : bool) (actividad alcohol : json) : Z :=
  punto fumador
  + punto (eq_str actividad "Sedentario")
  + punto (eq_str alcohol "Moderado" || eq_str alcohol "Alto").

Definition tabla (puntos : Z) : riesgo :=
  match puntos with
  | 0 => Riesgo 10 "Bajo"
  | 1 => Riesgo 30 "Bajo"
  | 2 => Riesgo 60 "Moderado"
  | _ => Riesgo 90 "Alto"
  end.

(** The number a floating-point value denotes; [None] for NaN and the
    infinities. *)
Definition valor (x : spec_float) : option Q :=
  match x with
  | S754_zero _ => Some 0%Q
  | S754_finite s m e =>
      Some (inject_Z (cond_Zopp s (Z.pos m)) * Qpower 2 e)%Q
  | S754_infinity _ => None
  | S754_nan => None
  end.

(** The five assessments of one evaluation. *)
Record componentes : Type := Componentes {
  coronaria : riesgo;
  hipertension : riesgo;
  diabetes : riesgo;
  dislipidemia : riesgo;
  estilo_vida : riesgo
}.

(** [componentes_de E data raw c]: [c] holds the machine-learned assessment
    derived from the raw prediction [raw] and the four rule assessments
    computed from the fields of [data]. *)
Definition componentes_de (E : entorno) (data : json) (raw : Numpy.float32)
    (c : componentes) : Prop :=
  exists pct sys_bp dia_bp glucosa ldl hdl total fumador actividad alcohol,
    int_of_spec (Numpy.mul_int raw 100) = ret pct
    /\ float_field E data "presion_sistolica" = ret sys_bp
    /\ float_field E data "presion_diastolica" = ret dia_bp
    /\ float_field E data "glucosa" = ret glucosa
    /\ float_field E data "colesterol_ldl" = ret ldl
    /\ float_field E data "colesterol_hdl" = ret hdl
    /\ float_field E data "colesterol_total" = ret total
    /\ getitem data "fumador" = ret fumador
    /\ getitem data "actividad_fisica" = ret actividad
    /\ getitem data "consumo_alcohol" = ret alcohol
    /\ c = Componentes
             (Riesgo pct (Rules.nivel_riesgo_coronario raw))
             (Rules.calcular_hipertension sys_bp dia_bp)
             (Rules.calcular_diabetes glucosa)
             (Rules.calcular_dislipidemia ldl hdl total)
             (Rules.calcular_riesgo_estilo_vida fumador actividad alcohol).

(** The largest of the five probabilities. *)
Definition max_probabilidad (c : componentes) : Z :=
  Z.max (probabilidad (coronaria c))
    (Z.max (probabilidad (hipertension c))
      (Z.max (probabilidad (diabetes c))
        (Z.max (probabilidad (dislipidemia c))
               (probabilidad (estilo_vida c))))).

(** The required fields, in the order in which the handler first reads
    them. *)
Definition campos_requeridos : list string :=
  [ "altura_cm"; "peso_kg"; "edad"; "sexo"; "presion_sistolica";
    "presion_diastolica"; "colesterol_total"; "glucosa"; "fumador";
    "colesterol_ldl"; "colesterol_hdl"; "actividad_fisica";
    "consumo_alcohol" ].

Definition falta (m : gmap string json) (k : string) : bool :=
  match m !! k with
  | Some _ => false
  | None => true
  end.

(** The first required field, in read order, that the payload lacks. *)
Definition primer_faltante (m : gmap string json) : option string :=
  find (falta m) campos_requeridos.

(** A valid input: every required field is present, the measurements
    convert with [float], the body-mass index can be computed, and the
    loaded scaler and model answer, the model with a probability in
    [0,1]. *)
Definition campos_numericos : list string :=
  [ "altura_cm"; "peso_kg"; "edad"; "presion_sistolica";
    "presion_diastolica"; "colesterol_total"; "glucosa"; "colesterol_ldl";
    "colesterol_hdl" ].

Definition campos_categoricos : list string :=
  [ "sexo"; "fumador"; "actividad_fisica"; "consumo_alcohol" ].

Definition numerico (E : entorno) (m : gmap string json) (k : string)
  : Prop :=
  exists x, float_field E (JObj m) k = ret x.

Definition presente (m : gmap string json) (k : string) : Prop :=
  exists v, getitem (JObj m) k = ret v.

(** The body-mass index of the payload can be computed. *)
Definition imc_calculable (E : entorno) (m : gmap string json) : Prop :=
  forall altura_cm altura_m peso_kg,
    float_field E (JObj m) "altura_cm" = ret altura_cm ->
    truediv altura_cm 100 = ret altura_m ->
    float_field E (JObj m) "peso_kg" = ret peso_kg ->
    exists altura_m2 bmi,
      pow E altura_m 2 = ret altura_m2
      /\ truediv peso_kg altura_m2 = ret bmi.

Definition entrada_valida (E : entorno) (m : gmap string json) : Prop :=
  Forall (numerico E m) campos_numericos
  /\ Forall (presente m) campos_categoricos
  /\ imc_calculable E m
  /\ exists transform predict,
       scaler E = Some transform
       /\ model E = Some predict
       /\ (forall x, exists y, transform x = ret y)
       /\ (forall y, exists raw,
             predict y = ret raw /\ Numpy.en_unidad raw = true).

(** The required fields the handler reads before it first reads [k]. *)
Fixpoint antes_de (k : string) (l : list string) : list string :=
  match l with
  | [] => []
  | f :: t => if String.eqb f k then [] else f :: antes_de k t
  end.

Definition leidos_antes (k : string) : list string :=
  antes_de k campos_requeridos.

(** The scaler and the model answer, and the prediction converts to a
    percentage. *)
Definition inferencia_responde
    (transform : list float -> result (list float))
    (predict : list float -> result Numpy.float32) : Prop :=
  (forall x, exists y, transform x = ret y)
  /\ (forall y, exists raw pct,
        predict y = ret raw
        /\ int_of_spec (Numpy.mul_int raw 100) = ret pct).

(** Nothing fails before the handler first reads [k]: the measurements
    read before [k] convert with [float]; when the weight is read before
    [k] the body-mass index can be computed; when the smoking flag is read
    before [k], which is when the inference runs before [k] is read, the
    scaler and the model answer. *)
Definition sin_fallo_previo (E : entorno)
    (transform : list float -> result (list float))
    (predict : list float -> result Numpy.float32)
    (m : gmap string json) (k : string) : Prop :=
  (forall f, In f (leidos_antes k) -> In f campos_numericos ->
             numerico E m f)
  /\ (In "peso_kg" (leidos_antes k) -> imc_calculable E m)
  /\ (In "fumador" (leidos_antes k) ->
      inferencia_responde transform predict).

(** Every prediction of the loaded model lies between 0 and 1. *)
Definition modelo_en_unidad (E : entorno) : Prop :=
  forall predict x raw,
    model E = Some predict -> predict x = ret raw ->
    Numpy.en_unidad raw = true.

(** The prediction [raw] is what the loaded model answers on an output of
    the loaded scaler. *)
Definition prediccion_de (E : entorno) (raw : Numpy.float32) : Prop :=
  exists transform predict input_data input_scaled,
    scaler E = Some transform /\ model E = Some predict
    /\ transform input_data = ret input_scaled
    /\ predict input_scaled = ret raw.

(** The first entry of the report of a response, when it has one. *)
Definition primera_entrada (resp : response) : option entrada :=
  match resp with
  | Success r => head (probabilidades_enfermedades r)
  | _ => None
  end.

(** A collaborator that never raises a [KeyError] of its own. *)
Definition sin_KeyError {A B} (f : A -> result B) : Prop :=
  forall x k, f x <> raise (KeyError k).

End Spec.

(** ** A concrete environment and payloads, for evaluation *)

Module Ejemplo.

(** Collaborators that always succeed: no string is a number, squaring
    never overflows, the scaler is the identity and the model predicts
    the binary32 value nearest to [raw] whatever the input. *)
Definition entorno_fijo (raw : float) : entorno :=
  Entorno (fun _ => None)
          (fun x _ => Some (x * x)%float)
          (fun s => "'" +:+ s +:+ "'")
          (Some (fun v => ret v))
          (Some (fun _ => ret (Numpy.de_float raw))).

(** The end-to-end example of the specification. *)
Definition paciente : gmap string json :=
  list_to_map
    [ ("edad", JInt 50); ("sexo", JStr "Masculino");
      ("altura_cm", JInt 170); ("peso_kg", JInt 70);
      ("presion_sistolica", JInt 145); ("presion_diastolica", JInt 95);
      ("colesterol_total", JInt 250); ("colesterol_ldl", JInt 170);
      ("colesterol_hdl", JInt 35); ("glucosa", JInt 130);
      ("fumador", JBool true); ("actividad_fisica", JStr "Sedentario");
      ("consumo_alcohol", JStr "Moderado") ].

Definition informe_paciente : informe :=
  Informe 95 "1.2-hibrido-avanzado"
    [ Entrada "Coronary Artery Disease" 69 "Moderado";
      Entrada "Hypertension" 92 "Alto";
      Entrada "Type 2 Diabetes" 95 "Alto";
      Entrada "Dislipidemia (Colesterol)" 90 "Alto";
      Entrada "Riesgo por Estilo de Vida" 90 "Alto" ].

(** The same patient without the HDL measurement. *)
Definition sin_hdl : gmap string json := delete "colesterol_hdl" paciente.

(** The same patient with a field the handler does not know. *)
Definition con_extra : gmap string json :=
  <[ "comentario" := JStr "control anual" ]> paciente.

(** The same patient, ten years older, shorter and of the other sex. *)
Definition otro_perfil : gmap string json :=
  <[ "edad" := JInt 60 ]>
    (<[ "sexo" := JStr "Femenino" ]> (<[ "altura_cm" := JInt 160 ]> paciente)).

Definition informe_otro_perfil : informe :=
  Informe 95 "1.2-hibrido-avanzado"
    [ Entrada "Coronary Artery Disease" 25 "Bajo";
      Entrada "Hypertension" 92 "Alto";
      Entrada "Type 2 Diabetes" 95 "Alto";
      Entrada "Dislipidemia (Colesterol)" 90 "Alto";
      Entrada "Riesgo por Estilo de Vida" 90 "Alto" ].

(** A height of zero, a weight, and nothing else. *)
Definition altura_cero : gmap string json :=
  {[ "altura_cm" := JInt 0; "peso_kg" := JInt 70 ]}.

(** A payload whose height is [null] and that has no other field. *)
Definition altura_nula : gmap string json := {[ "altura_cm" := JNull ]}.

End Ejemplo.

(** ** Loading the resources

    [load_resources] fills the two globals [model] and [scaler] from the
    artefacts on disk, each only when it is still [None].  The loaders
    belong to TensorFlow and joblib: an artefact is what its loader
    returns, or the exception it raises.  When a loader raises, the
    exception leaves [load_resources] and the globals assigned before stay
    assigned. *)

Module Recursos.

Record artefactos : Type := Artefactos {
  load_model : result (list float -> result Numpy.float32);
  joblib_load : result (list float -> result (list float))
}.

Definition set_model (E : entorno)
    (f : list float -> result Numpy.float32) : entorno :=
  Entorno (float_of_str E) (float_pow E) (repr_str E) (scaler E) (Some f).

Definition set_scaler (E : entorno)
    (g : list float -> result (list float)) : entorno :=
  Entorno (float_of_str E) (float_pow E) (repr_str E) (Some g) (model E).

(** The globals after the call, and the exception that left it, if any. *)
Definition load_resources (A : artefactos) (E : entorno)
  : entorno * option exn :=
  let after_model :=
    match model E with
    | None => match load_model A with
              | inr f => inr (set_model E f)
              | inl e => inl e
              end
    | Some _ => inr E
    end in
  match after_model with
  | inl e => (E, Some e)
  | inr E1 =>
      match scaler E1 with
      | None => match joblib_load A with
                | inr g => (set_scaler E1 g, None)
                | inl e => (E1, Some e)
                end
      | Some _ => (E1, None)
      end
  end.

(** The globals as the module body leaves them before the first load. *)
Definition sin_cargar (E : entorno) : entorno :=
  Entorno (float_of_str E) (float_pow E) (repr_str E) None None.

End Recursos.

Module EjemploCarga.

(** Artefacts that load, and the globals before the first load. *)
Definition artefactos_ok : Recursos.artefactos :=
  Recursos.Artefactos (inr (fun _ => ret (Numpy.de_float 0.6999)))
    (inr (fun v => ret v)).

Definition antes : entorno :=
  Recursos.sin_cargar (Ejemplo.entorno_fijo 0.6999).

Definition despues : entorno :=
  fst (Recursos.load_resources artefactos_ok antes).

End EjemploCarga.

(** ** Bands shared by the rules *)

Module Bandas.

(** The level that goes with a rule probability. *)
Definition nivel_de (p : Z) : string :=
  if 80 <=? p then "Alto"
  else if 45 <=? p then "Moderado"
  else "Bajo".

(** A float that is a number: it equals itself. *)
Definition es_numero (x : float) : bool := PrimFloat.eqb x x.

(** The fields the four rules read. *)
Definition campos_reglas : list string :=
  [ "presion_sistolica"; "presion_diastolica"; "glucosa";
    "colesterol_ldl"; "colesterol_hdl"; "colesterol_total";
    "fumador"; "actividad_fisica"; "consumo_alcohol" ].

(** The lifestyle indicators of a payload, as the rule reads them. *)
Definition indicadores (fumador actividad alcohol : json) : list bool :=
  [ truthy fumador;
    eq_str actividad "Sedentario";
    in_strs alcohol ["Moderado"; "Alto"] ].

End Bandas.

(** ** Rounding of the percentage *)

Module Redondeo.

(** The state of a right shift by [k] bits of the integer [p]: the
    quotient, and no sticky bit when nothing was shifted out. *)
Definition shifted (p k : Z) (mrs : shr_record) : Prop :=
  shr_m mrs = p / 2 ^ k
  /\ (p mod 2 ^ k = 0 -> shr_r mrs = false /\ shr_s mrs = false).

(** The integer part of a finite value, zero otherwise. *)
Definition SFtrunc (x : spec_float) : Z :=
  match x with
  | S754_finite s m e => cond_Zopp s (Z.shiftl (Z.pos m) e)
  | _ => 0
  end.

(** The binary32 product of [m * 2^e] by 100. *)
Definition producto (m : positive) (e : Z) : spec_float :=
  binary_round_aux 24 128 false (Z.pos (m * 13107200)) (e + -17) loc_Exact.

(** The level that goes with a coronary percentage. *)
Definition nivel_de_pct (pct : Z) : string :=
  if 70 <=? pct then "Alto"
  else if 30 <=? pct then "Moderado"
  else "Bajo".

End Redondeo.

(** * Properties *)

Example hipertension_145_95 :
  Rules.calcular_hipertension 145 95 = Riesgo 92 "Alto".
Proof. reflexivity. Qed.

Example hipertension_nan :
  Rules.calcular_hipertension nan nan = Riesgo 10 "Bajo".
Proof. reflexivity. Qed.

Example dislipidemia_170_35_250 :
  Rules.calcular_dislipidemia 170 35 250 = Riesgo 90 "Alto".
Proof. reflexivity. Qed.

Example estilo_vida_3 :
  Rules.calcular_riesgo_estilo_vida (JBool true) (JStr "Sedentario") (JStr "Moderado")
  = Riesgo 90 "Alto".
Proof. reflexivity. Qed.

Example float_of_Z_140 : float_of_Z 140 = ret 140%float.
Proof. reflexivity. Qed.

Example int_of_spec_69 :
  int_of_spec (Numpy.mul_int (Numpy.de_float 0.6999) 100) = ret 69.
Proof. vm_compute. reflexivity. Qed.

Example int_of_spec_29 :
  int_of_spec (Numpy.mul_int (Numpy.de_float 0.29) 100) = ret 29.
Proof. vm_compute. reflexivity. Qed.

Example nivel_070 : Rules.nivel_riesgo_coronario (Numpy.de_float 0.70) = "Alto".
Proof. vm_compute. reflexivity. Qed.

(** ** The order on binary64 values

    [SFcompare] orders finite values by sign, exponent and mantissa; the
    facts below hold for that order as it is defined, and reach the
    primitive comparisons through [leb_spec] and [ltb_spec]. *)

Module FloatOrder.

Ltac order_cases :=
  repeat match goal with
  | |- context [PosDef.Pos.compare_cont Eq ?a ?b] =>
      change (PosDef.Pos.compare_cont Eq a b) with (Pos.compare a b)
  | H : context [PosDef.Pos.compare_cont Eq ?a ?b] |- _ =>
      change (PosDef.Pos.compare_cont Eq a b) with (Pos.compare a b) in H
  | |- context [Z.compare ?a ?b] => destruct (Z.compare_spec a b)
  | H : context [Z.compare ?a ?b] |- _ => destruct (Z.compare_spec a b)
  | |- context [Pos.compare ?a ?b] => destruct (Pos.compare_spec a b)
  | H : context [Pos.compare ?a ?b] |- _ => destruct (Pos.compare_spec a b)
  end.

Ltac by_shape :=
  simpl; try discriminate; try reflexivity;
  repeat match goal with s : bool |- _ => destruct s end;
  simpl; try discriminate; try reflexivity.

Lemma SFleb_trans x y z :
  SFleb x y = true -> SFleb y z = true -> SFleb x z = true.
Proof.
  unfold SFleb.
  destruct x as [sx|sx| |sx mx ex], y as [sy|sy| |sy my ey],
           z as [sz|sz| |sz mz ez]; by_shape;
    intros Hxy Hyz; order_cases; simpl in *; subst;
    try discriminate; try reflexivity; lia.
Qed.

(** Two values that are not NaN are comparable. *)
Lemma SFleb_total x y :
  SFleb x x = true -> SFleb y y = true -> SFleb x y = false ->
  SFltb y x = true.
Proof.
  unfold SFleb, SFltb.
  destruct x as [sx|sx| |sx mx ex], y as [sy|sy| |sy my ey]; by_shape;
    intros _ _ Hxy; order_cases; simpl in *; subst;
    try discriminate; try reflexivity; lia.
Qed.

Lemma SFleb_refl_r x y : SFleb x y = true -> SFleb y y = true.
Proof.
  unfold SFleb.
  destruct x as [sx|sx| |sx mx ex], y as [sy|sy| |sy my ey]; by_shape;
    intros _; order_cases; try reflexivity; lia.
Qed.

(** [a <= b] and [a >= c] give [b >= c]. *)
Lemma fge_mono (a b c : float) :
  PrimFloat.leb a b = true -> fge a c = true -> fge b c = true.
Proof.
  unfold fge. rewrite !leb_spec. intros Hab Hca.
  exact (SFleb_trans _ _ _ Hca Hab).
Qed.

(** When [b] is not NaN (it is above something) and [c] is a number,
    [b >= c] failing means [b < c]. *)
Lemma not_fge_flt (a b c : float) :
  PrimFloat.leb a b = true -> PrimFloat.leb c c = true ->
  fge b c = false -> flt b c = true.
Proof.
  unfold fge, flt. rewrite !leb_spec, ltb_spec. intros Hab Hc Hbc.
  apply SFleb_total; [exact Hc | exact (SFleb_refl_r _ _ Hab) | exact Hbc].
Qed.

End FloatOrder.

(** ** Rounding

    Facts about the number of digits of a mantissa and about the integer
    part of a value, shared by the analysis of the product below. *)

Module FloatRound.

Lemma digits2_pos_size p : digits2_pos p = Pos.size p.
Proof. induction p; cbn; congruence. Qed.

Lemma Zdigits2_bound a k :
  0 <= k -> 0 <= a < 2 ^ k -> Zdigits2 a <= k.
Proof.
  intros Hk [Ha Hlt]. destruct a as [|p|p]; cbn; [lia| |lia].
  rewrite digits2_pos_size.
  pose proof (Pos.size_le p) as Hle.
  apply Pos2Z.pos_le_pos in Hle. rewrite Pos2Z.inj_pow in Hle.
  change (Z.pos p~0) with (2 * Z.pos p) in Hle.
  assert (2 ^ Z.pos (Pos.size p) < 2 ^ (k + 1)) as Hpow
    by (rewrite Z.pow_add_r by lia; lia).
  apply Z.pow_lt_mono_r_iff in Hpow; lia.
Qed.

Lemma digits2_pos_gt p : Z.pos p < 2 ^ Z.pos (digits2_pos p).
Proof.
  rewrite digits2_pos_size. pose proof (Pos.size_gt p) as H.
  apply Pos2Z.pos_lt_pos in H. now rewrite Pos2Z.inj_pow in H.
Qed.

Lemma digits2_pos_le p : 2 ^ Z.pos (digits2_pos p) <= 2 * Z.pos p.
Proof.
  rewrite digits2_pos_size. pose proof (Pos.size_le p) as H.
  apply Pos2Z.pos_le_pos in H. now rewrite Pos2Z.inj_pow in H.
Qed.

Lemma Qpower_2_pos n : 0 <= n -> (inject_Z (2 ^ n) == Qpower 2 n)%Q.
Proof. intros H. now rewrite Zpower_Qpower. Qed.

(** [Z.shiftl m e] is the integer part of [m * 2^e]. *)
Lemma trunc_bounds (m : positive) (e : Z) :
  let v := (inject_Z (Z.pos m) * Qpower 2 e)%Q in
  (inject_Z (Z.shiftl (Z.pos m) e) <= v)%Q
  /\ (v < inject_Z (Z.shiftl (Z.pos m) e + 1))%Q.
Proof.
  cbv zeta. destruct (Z.le_gt_cases 0 e) as [He|He].
  - rewrite Z.shiftl_mul_pow2 by exact He.
    rewrite <- Qpower_2_pos by exact He.
    rewrite <- inject_Z_mult. rewrite <- Zle_Qle, <- Zlt_Qlt. lia.
  - replace e with (- (- e)) by lia.
    rewrite Z.shiftl_opp_r, Z.shiftr_div_pow2 by lia.
    rewrite Qpower_opp, <- Qpower_2_pos by lia.
    set (d := 2 ^ (- e)).
    assert (0 < d) as Hd by (apply Z.pow_pos_nonneg; lia).
    assert (0 < inject_Z d)%Q as HdQ by (unfold Qlt; cbn; lia).
    pose proof (Z.mul_div_le (Z.pos m) d Hd).
    pose proof (Z.mul_succ_div_gt (Z.pos m) d Hd).
    split.
    + apply Qle_shift_div_l; [exact HdQ|].
      rewrite <- inject_Z_mult, <- Zle_Qle. lia.
    + apply Qlt_shift_div_r; [exact HdQ|].
      rewrite <- inject_Z_mult, <- Zlt_Qlt. lia.
Qed.

End FloatRound.

(** ** The binary32 product [raw * 100]

    [SFmul 24 128] rounds the exact product of the mantissas to nearest
    even.  For [raw] between 0 and 1 the rounded product is zero or a
    positive finite value of at most 100, and its integer part stands on
    the same side of 70 and of 30 as [raw] stands of the binary32 values
    of [0.70] and [0.30]. *)

Module FloatProduct.

Import Redondeo.

Lemma shifted_0 p : shifted p 0 (Build_shr_record p false false).
Proof. split; cbn; [now rewrite Z.div_1_r | auto]. Qed.

Lemma shr_1_div2 mrs :
  0 <= shr_m mrs ->
  shr_m (shr_1 mrs) = shr_m mrs / 2
  /\ shr_r (shr_1 mrs) = Z.odd (shr_m mrs)
  /\ shr_s (shr_1 mrs) = shr_r mrs || shr_s mrs.
Proof.
  destruct mrs as [m r s]. cbn [shr_m shr_r shr_s]. intros Hm.
  destruct m as [|[q|q|]|q]; try lia; cbn [shr_1 shr_m shr_r shr_s];
    repeat split; try reflexivity.
  - change (Z.pos q~1) with (2 * Z.pos q + 1).
    apply Z.div_unique with 1; lia.
  - change (Z.pos q~0) with (2 * Z.pos q).
    apply Z.div_unique with 0; lia.
Qed.

Lemma shifted_step p k mrs :
  0 <= p -> 0 <= k -> shifted p k mrs -> shifted p (k + 1) (shr_1 mrs).
Proof.
  intros Hp Hk [Hm Hex].
  assert (0 < 2 ^ k) as Hpow by (apply Z.pow_pos_nonneg; lia).
  assert (0 <= shr_m mrs) as Hm0 by (rewrite Hm; apply Z.div_pos; lia).
  destruct (shr_1_div2 mrs Hm0) as (H1 & H2 & H3).
  unfold shifted. rewrite Z.pow_add_r, Z.pow_1_r by lia.
  split.
  - rewrite H1, Hm. rewrite Z.div_div by lia. reflexivity.
  - intros Hmod.
    assert (p mod 2 ^ k = 0 /\ (p / 2 ^ k) mod 2 = 0) as [Ha Hb].
    { rewrite Z.rem_mul_r in Hmod by lia.
      pose proof (Z.mod_pos_bound p (2 ^ k) Hpow).
      pose proof (Z.mod_pos_bound (p / 2 ^ k) 2 ltac:(lia)). nia. }
    destruct (Hex Ha) as [Hr Hs].
    rewrite H2, H3, Hr, Hs, Hm. split; [|reflexivity].
    rewrite <- Z.negb_even. rewrite Zeven_mod, Hb. reflexivity.
Qed.

Lemma shifted_iter p n k mrs :
  0 <= p -> 0 <= k -> shifted p k mrs ->
  shifted p (k + Z.pos n) (SpecFloat.iter_pos shr_1 n mrs).
Proof.
  intros Hp. revert k mrs.
  induction n as [n IH|n IH|]; intros k mrs Hk H; cbn [SpecFloat.iter_pos].
  - replace (k + Z.pos n~1) with (k + 1 + Z.pos n + Z.pos n) by lia.
    apply IH; [lia|]. apply IH; [lia|]. apply shifted_step; assumption.
  - replace (k + Z.pos n~0) with (k + Z.pos n + Z.pos n) by lia.
    apply IH; [lia|]. apply IH; assumption.
  - apply shifted_step; assumption.
Qed.

Lemma shifted_shr p e n :
  0 <= p ->
  shifted p (Z.max 0 n) (fst (shr (shr_record_of_loc p loc_Exact) e n))
  /\ snd (shr (shr_record_of_loc p loc_Exact) e n) = e + Z.max 0 n.
Proof.
  intros Hp. cbn [shr_record_of_loc].
  destruct n as [|q|q]; cbn [shr fst snd].
  - split; [apply shifted_0 | lia].
  - split; [|lia]. replace (Z.max 0 (Z.pos q)) with (0 + Z.pos q) by lia.
    apply shifted_iter; [lia | lia | apply shifted_0].
  - split; [apply shifted_0 | lia].
Qed.

(** Rounding to nearest: the quotient, or one more when something was
    shifted out. *)
Lemma round_shifted p k mrs :
  0 <= p -> 0 <= k -> shifted p k mrs ->
  let m1 := round_nearest_even (shr_m mrs) (loc_of_shr_record mrs) in
  0 <= m1 /\ p < (m1 + 1) * 2 ^ k /\ m1 * 2 ^ k < p + 2 ^ k.
Proof.
  intros Hp Hk [Hm Hex]. cbv zeta.
  assert (0 < 2 ^ k) as Hpow by (apply Z.pow_pos_nonneg; lia).
  pose proof (Z.div_mod p (2 ^ k) ltac:(lia)) as Hdm.
  pose proof (Z.mod_pos_bound p (2 ^ k) Hpow) as Hmod.
  assert (0 <= p / 2 ^ k) by (apply Z.div_pos; lia).
  destruct mrs as [m r s]. cbn [shr_m shr_r shr_s] in *. subst m.
  destruct (Z.eq_dec (p mod 2 ^ k) 0) as [Hz|Hnz].
  - destruct (Hex Hz) as [-> ->]. cbn [loc_of_shr_record round_nearest_even].
    nia.
  - assert (0 <= round_nearest_even (p / 2 ^ k)
                   (loc_of_shr_record (Build_shr_record (p / 2 ^ k) r s))
            <= p / 2 ^ k + 1
            /\ p / 2 ^ k <= round_nearest_even (p / 2 ^ k)
                   (loc_of_shr_record (Build_shr_record (p / 2 ^ k) r s)))
      as [HR1 HR2].
    { destruct r, s; cbn [loc_of_shr_record round_nearest_even];
        try destruct (Z.even _); lia. }
    nia.
Qed.

Lemma shiftl_nonpos a e : e <= 0 -> Z.shiftl a e = a / 2 ^ (- e).
Proof.
  intros He. replace e with (- (- e)) at 1 by lia.
  rewrite Z.shiftl_opp_r. apply Z.shiftr_div_pow2. lia.
Qed.

(** Rounding [p * 2^ex] when it is below [K <= 128] by at least [2^G]
    units of [2^ex], where at most [G] bits are shifted out: the result is
    zero or finite, and its integer part is that of [m1 * 2^(ex+N)] for
    the rounded quotient [m1] of [p] by [2^N]. *)
Lemma round_aux_structure p ex G K :
  0 <= G <= - ex -> -149 <= ex + G -> Z.pos p < 2 ^ (G + 24) ->
  0 <= K <= 128 -> Z.pos p + 2 ^ G <= K * 2 ^ (- ex) ->
  let r := binary_round_aux 24 128 false (Z.pos p) ex loc_Exact in
  (r = S754_zero false \/ exists m e, r = S754_finite false m e)
  /\ exists N m1,
       0 <= N <= G /\ 0 <= m1
       /\ Z.pos p < (m1 + 1) * 2 ^ N
       /\ m1 * 2 ^ N < Z.pos p + 2 ^ N
       /\ SFtrunc r = m1 / 2 ^ (- ex - N).
Proof.
  intros HG Hemin Hp HK Hbound. cbv zeta.
  unfold binary_round_aux, shr_fexp.
  set (n1 := SpecFloat.fexp 24 128 (Zdigits2 (Z.pos p) + ex) - ex).
  destruct (shifted_shr (Z.pos p) ex n1 ltac:(lia)) as [Hs1 He1].
  destruct (shr (shr_record_of_loc (Z.pos p) loc_Exact) ex n1) as [mrs' e'].
  cbn [fst snd] in Hs1, He1. subst e'.
  set (N := Z.max 0 n1) in *.
  assert (Zdigits2 (Z.pos p) <= G + 24) as D by (apply FloatRound.Zdigits2_bound; lia).
  assert (0 <= N <= G) as HN
    by (subst N n1; unfold SpecFloat.fexp, SpecFloat.emin; lia).
  destruct (round_shifted (Z.pos p) N mrs' ltac:(lia) ltac:(lia) Hs1)
    as (Hm1 & Hlo & Hhi).
  set (m1 := round_nearest_even (shr_m mrs') (loc_of_shr_record mrs')) in *.
  set (e' := ex + N).
  set (n2 := SpecFloat.fexp 24 128 (Zdigits2 m1 + e') - e').
  destruct (shifted_shr m1 e' n2 Hm1) as [[Hs2 _] He2].
  destruct (shr (shr_record_of_loc m1 loc_Exact) e' n2) as [mrs'' e''].
  cbn [fst snd] in Hs2, He2. subst e''.
  set (N2 := Z.max 0 n2) in *.
  (* powers *)
  assert (0 < 2 ^ N) as PN by (apply Z.pow_pos_nonneg; lia).
  assert (2 ^ N <= 2 ^ G) as PNG by (apply Z.pow_le_mono_r; lia).
  assert (2 ^ (- ex) = 2 ^ (- e') * 2 ^ N) as Pex
    by (rewrite <- Z.pow_add_r by lia; f_equal; lia).
  assert (0 < 2 ^ (- e')) as PE by (apply Z.pow_pos_nonneg; lia).
  assert (m1 < 2 ^ (7 - e')) as Hm1lt.
  { replace (7 - e') with (7 + - e') by lia.
    rewrite Z.pow_add_r by lia. change (2 ^ 7) with 128. nia. }
  assert (Zdigits2 m1 <= 7 - e') as D1 by (apply FloatRound.Zdigits2_bound; lia).
  assert (0 <= N2 /\ e' + N2 <= 0) as [HN2 HE2]
    by (subst N2 n2; unfold SpecFloat.fexp, SpecFloat.emin; lia).
  assert (0 < 2 ^ N2) as PN2 by (apply Z.pow_pos_nonneg; lia).
  assert (0 <= m1 / 2 ^ N2) as Hq by (apply Z.div_pos; lia).
  assert (m1 / 2 ^ (- ex - N) = m1 / 2 ^ N2 / 2 ^ (- (e' + N2))) as Hdiv.
  { rewrite Z.div_div by (try apply Z.pow_pos_nonneg; lia).
    rewrite <- Z.pow_add_r by lia. do 2 f_equal. lia. }
  rewrite Hs2.
  destruct (m1 / 2 ^ N2) as [|q|q] eqn:Eq; [| |lia].
  - split; [left; reflexivity|].
    exists N, m1. repeat split; try lia.
    cbn [SFtrunc]. rewrite Hdiv. rewrite Z.div_0_l; [reflexivity|].
    apply Z.pow_nonzero; lia.
  - assert ((e' + N2 <=? 128 - 24) = true) as ->
      by (apply Z.leb_le; lia).
    split; [right; eauto|].
    exists N, m1. repeat split; try lia.
    cbn [SFtrunc cond_Zopp]. rewrite shiftl_nonpos by lia.
    rewrite Hdiv. reflexivity.
Qed.

Lemma round_aux_upper p ex G K :
  0 <= G <= - ex -> -149 <= ex + G -> Z.pos p < 2 ^ (G + 24) ->
  0 <= K <= 128 -> Z.pos p + 2 ^ G <= K * 2 ^ (- ex) ->
  0 <= SFtrunc (binary_round_aux 24 128 false (Z.pos p) ex loc_Exact) < K.
Proof.
  intros HG Hemin Hp HK Hbound.
  destruct (round_aux_structure p ex G K HG Hemin Hp HK Hbound)
    as (_ & N & m1 & HN & Hm1 & Hlo & Hhi & ->).
  assert (0 < 2 ^ N) as PN by (apply Z.pow_pos_nonneg; lia).
  assert (2 ^ N <= 2 ^ G) as PNG by (apply Z.pow_le_mono_r; lia).
  assert (0 < 2 ^ (- ex - N)) as PE by (apply Z.pow_pos_nonneg; lia).
  assert (2 ^ (- ex) = 2 ^ (- ex - N) * 2 ^ N) as Pex
    by (rewrite <- Z.pow_add_r by lia; f_equal; lia).
  split; [apply Z.div_pos; lia|].
  apply Z.div_lt_upper_bound; [exact PE|]. nia.
Qed.

Lemma round_aux_lower p ex G K K0 :
  0 <= G <= - ex -> -149 <= ex + G -> Z.pos p < 2 ^ (G + 24) ->
  0 <= K <= 128 -> Z.pos p + 2 ^ G <= K * 2 ^ (- ex) ->
  K0 * 2 ^ (- ex) <= Z.pos p ->
  K0 <= SFtrunc (binary_round_aux 24 128 false (Z.pos p) ex loc_Exact).
Proof.
  intros HG Hemin Hp HK Hbound Hlow.
  destruct (round_aux_structure p ex G K HG Hemin Hp HK Hbound)
    as (_ & N & m1 & HN & Hm1 & Hlo & Hhi & ->).
  assert (0 < 2 ^ N) as PN by (apply Z.pow_pos_nonneg; lia).
  assert (0 < 2 ^ (- ex - N)) as PE by (apply Z.pow_pos_nonneg; lia).
  assert (2 ^ (- ex) = 2 ^ (- ex - N) * 2 ^ N) as Pex
    by (rewrite <- Z.pow_add_r by lia; f_equal; lia).
  apply Z.div_le_lower_bound; [exact PE|]. nia.
Qed.

(** What validity says of a finite binary32 value. *)
Lemma valid_finite s m e :
  SpecFloat.valid_binary 24 128 (S754_finite s m e) = true ->
  -149 <= e /\ Z.pos m < 16777216 /\ (-149 < e -> 8388608 <= Z.pos m).
Proof.
  unfold SpecFloat.valid_binary, bounded, canonical_mantissa,
    SpecFloat.fexp, SpecFloat.emin.
  intros H. apply andb_prop in H as [H _]. apply Z.eqb_eq in H.
  pose proof (FloatRound.digits2_pos_gt m) as G.
  pose proof (FloatRound.digits2_pos_le m) as L.
  assert (Z.pos (digits2_pos m) <= 24) as D by lia.
  assert (2 ^ 24 = 16777216) as P24 by reflexivity.
  repeat split; [lia | |].
  - rewrite <- P24. eapply Z.lt_le_trans; [exact G|].
    apply Z.pow_le_mono_r; lia.
  - intros He. assert (Z.pos (digits2_pos m) = 24) as E24 by lia.
    rewrite E24, P24 in L. lia.
Qed.

Lemma unit_interval_shape (raw : spec_float) :
  SpecFloat.valid_binary 24 128 raw = true ->
  SFleb (S754_zero false) raw = true ->
  SFleb raw (S754_finite false 8388608 (-23)) = true ->
  (exists s, raw = S754_zero s)
  \/ exists m e,
       raw = S754_finite false m e
       /\ -149 <= e <= -23 /\ Z.pos m < 16777216
       /\ (-149 < e -> 8388608 <= Z.pos m)
       /\ (e = -23 -> Z.pos m <= 8388608).
Proof.
  intros Hv.
  destruct raw as [s|s| |s m e]; unfold SFleb, SFcompare.
  - intros _ _. left. eauto.
  - destruct s; discriminate.
  - discriminate.
  - destruct s; [discriminate|]. intros _ H1. right. exists m, e.
    apply valid_finite in Hv as (V1 & V2 & V3).
    split; [reflexivity|].
    destruct (Z.compare_spec e (-23)) as [E|E|E]; try discriminate H1.
    + repeat split; try lia. intros _.
      rewrite (Pos.compare_cont_spec m 8388608 Eq) in H1.
      cbn [Pos.switch_Eq] in H1.
      destruct (Pos.compare_spec m 8388608) as [C|C|C].
      * rewrite C. apply Z.le_refl.
      * apply Z.lt_le_incl. exact (Pos2Z.pos_lt_pos _ _ C).
      * discriminate H1.
    + repeat split; lia.
Qed.

Ltac pow2 k :=
  let v := eval vm_compute in (2 ^ k) in
  replace (2 ^ k) with v by (vm_compute; reflexivity).

Section Product.

Variables (m : positive) (e : Z).
Hypothesis He : -149 <= e <= -23.
Hypothesis Hm : Z.pos m < 16777216.
Hypothesis Hnormal : -149 < e -> 8388608 <= Z.pos m.
Hypothesis Hone : e = -23 -> Z.pos m <= 8388608.

Lemma pow_exponent :
  exists T, 2 ^ (- (e + -17)) = 1099511627776 * T
            /\ 1 <= T /\ (e < -23 -> 2 <= T) /\ (e < -24 -> 4 <= T)
            /\ (e < -25 -> 8 <= T).
Proof.
  exists (2 ^ (-23 - e)).
  replace (- (e + -17)) with (40 + (-23 - e)) by lia.
  rewrite Z.pow_add_r by lia. pow2 40.
  split; [reflexivity|].
  split; [|split; [|split]].
  - assert (2 ^ 0 <= 2 ^ (-23 - e)) as P by (apply Z.pow_le_mono_r; lia).
    exact P.
  - intros H. assert (2 ^ 1 <= 2 ^ (-23 - e)) as P
      by (apply Z.pow_le_mono_r; lia). exact P.
  - intros H. assert (2 ^ 2 <= 2 ^ (-23 - e)) as P
      by (apply Z.pow_le_mono_r; lia). exact P.
  - intros H. assert (2 ^ 3 <= 2 ^ (-23 - e)) as P
      by (apply Z.pow_le_mono_r; lia). exact P.
Qed.

Lemma producto_shape :
  producto m e = S754_zero false
  \/ exists q e', producto m e = S754_finite false q e'.
Proof.
  unfold Redondeo.producto.
  apply (round_aux_structure (m * 13107200) (e + -17) 24 101);
    [lia | lia | | lia | ].
  - rewrite Pos2Z.inj_mul. pow2 (24 + 24). lia.
  - rewrite Pos2Z.inj_mul. pow2 24.
    destruct pow_exponent as (T & -> & T1 & T2 & _).
    destruct (Z.eq_dec e (-23)) as [E|E].
    + specialize (Hone E). lia.
    + specialize (T2 ltac:(lia)). lia.
Qed.

Lemma producto_upper K :
  0 <= K <= 128 ->
  Z.pos m * 13107200 + 16777216 <= K * 2 ^ (- (e + -17)) ->
  0 <= SFtrunc (producto m e) < K.
Proof.
  intros HK Hb. unfold Redondeo.producto.
  apply round_aux_upper with (G := 24); [lia | lia | | lia | ].
  - rewrite Pos2Z.inj_mul. pow2 (24 + 24). lia.
  - rewrite Pos2Z.inj_mul. pow2 24. exact Hb.
Qed.

Lemma producto_le_100 : 0 <= SFtrunc (producto m e) <= 100.
Proof.
  enough (0 <= SFtrunc (producto m e) < 101) by lia.
  apply producto_upper; [lia|].
  destruct pow_exponent as (T & -> & T1 & T2 & _).
  destruct (Z.eq_dec e (-23)) as [E|E].
  - specialize (Hone E). lia.
  - specialize (T2 ltac:(lia)). lia.
Qed.

Lemma producto_lower K0 :
  K0 * 2 ^ (- (e + -17)) <= Z.pos m * 13107200 ->
  K0 <= SFtrunc (producto m e).
Proof.
  intros Hlow. unfold Redondeo.producto.
  apply round_aux_lower with (G := 24) (K := 101);
    [lia | lia | | lia | | ].
  - rewrite Pos2Z.inj_mul. pow2 (24 + 24). lia.
  - rewrite Pos2Z.inj_mul. pow2 24.
    destruct pow_exponent as (T & -> & T1 & T2 & _).
    destruct (Z.eq_dec e (-23)) as [E|E].
    + specialize (Hone E). lia.
    + specialize (T2 ltac:(lia)). lia.
  - rewrite Pos2Z.inj_mul. exact Hlow.
Qed.

Lemma m_literal (c : positive) : Z.pos m = Z.pos c -> m = c.
Proof. intros H. injection H as ->. reflexivity. Qed.

Lemma producto_ge_70 :
  e = -23 \/ (e = -24 /\ 11744051 <= Z.pos m) ->
  70 <= SFtrunc (producto m e).
Proof.
  intros [E | [E Hc]].
  - apply producto_lower. rewrite E. pow2 (- (-23 + -17)).
    specialize (Hnormal ltac:(lia)). lia.
  - destruct (Z.eq_dec (Z.pos m) 11744051) as [Heq|Hne].
    + apply m_literal in Heq. rewrite Heq, E. vm_compute. discriminate.
    + apply producto_lower. rewrite E. pow2 (- (-24 + -17)). lia.
Qed.

Lemma producto_lt_70 :
  e < -24 \/ (e = -24 /\ Z.pos m < 11744051) ->
  SFtrunc (producto m e) <= 69.
Proof.
  intros [E | [E Hc]].
  - enough (0 <= SFtrunc (producto m e) < 70) by lia.
    apply producto_upper; [lia|].
    destruct pow_exponent as (T & -> & _ & _ & T4 & _).
    specialize (T4 E). lia.
  - destruct (Z.eq_dec (Z.pos m) 11744050) as [Heq|Hne].
    + apply m_literal in Heq. rewrite Heq, E. vm_compute. discriminate.
    + enough (0 <= SFtrunc (producto m e) < 70) by lia.
      apply producto_upper; [lia|]. rewrite E. pow2 (- (-24 + -17)). lia.
Qed.

Lemma producto_ge_30 :
  -25 < e \/ (e = -25 /\ 10066330 <= Z.pos m) ->
  30 <= SFtrunc (producto m e).
Proof.
  intros [E | [E Hc]].
  - apply producto_lower. specialize (Hnormal ltac:(lia)).
    assert (e = -23 \/ e = -24) as [E'|E'] by lia; rewrite E'.
    + pow2 (- (-23 + -17)). lia.
    + pow2 (- (-24 + -17)). lia.
  - apply producto_lower. rewrite E. pow2 (- (-25 + -17)). lia.
Qed.

Lemma producto_lt_30 :
  e < -25 \/ (e = -25 /\ Z.pos m < 10066330) ->
  SFtrunc (producto m e) <= 29.
Proof.
  intros [E | [E Hc]].
  - enough (0 <= SFtrunc (producto m e) < 30) by lia.
    apply producto_upper; [lia|].
    destruct pow_exponent as (T & -> & _ & _ & _ & T8).
    specialize (T8 E). lia.
  - destruct (Z.eq_dec (Z.pos m) 10066329) as [Heq|Hne].
    + apply m_literal in Heq. rewrite Heq, E. vm_compute. discriminate.
    + enough (0 <= SFtrunc (producto m e) < 30) by lia.
      apply producto_upper; [lia|]. rewrite E. pow2 (- (-25 + -17)). lia.
Qed.

End Product.

(** The binary32 values of the operands the handler and the rule use. *)
Lemma de_int_100 : Numpy.de_int 100 = S754_finite false 13107200 (-17).
Proof. vm_compute. reflexivity. Qed.

Lemma de_int_1 : Numpy.de_int 1 = S754_finite false 8388608 (-23).
Proof. vm_compute. reflexivity. Qed.

Lemma de_float_070 : Numpy.de_float 0.70 = S754_finite false 11744051 (-24).
Proof. vm_compute. reflexivity. Qed.

Lemma de_float_030 : Numpy.de_float 0.30 = S754_finite false 10066330 (-25).
Proof. vm_compute. reflexivity. Qed.

Lemma mul_int_finite m e :
  Numpy.mul_int (S754_finite false m e) 100 = producto m e.
Proof. unfold Numpy.mul_int. rewrite de_int_100. reflexivity. Qed.

Lemma mul_int_zero s : Numpy.mul_int (S754_zero s) 100 = S754_zero s.
Proof.
  unfold Numpy.mul_int. rewrite de_int_100. destruct s; reflexivity.
Qed.

(** [c <= x] read on the representations of two positive finite values. *)
Lemma SFleb_finite mc ec m e :
  SFleb (S754_finite false mc ec) (S754_finite false m e) = true
  <-> ec < e \/ (ec = e /\ Z.pos mc <= Z.pos m).
Proof.
  unfold SFleb, SFcompare.
  rewrite (Pos.compare_cont_spec mc m Eq). cbn [Pos.switch_Eq].
  destruct (Z.compare_spec ec e) as [E|E|E].
  - destruct (Pos.compare_spec mc m) as [C|C|C].
    + subst. split; [intros _; right; split; [reflexivity|apply Z.le_refl]
                    | reflexivity].
    + apply Pos2Z.pos_lt_pos in C.
      split; [intros _; right; split; [exact E|lia] | reflexivity].
    + apply Pos2Z.pos_lt_pos in C.
      split; [discriminate | intros [H|[_ H]]; lia].
  - split; [intros _; left; exact E | reflexivity].
  - split; [discriminate | intros [H|[H _]]; lia].
Qed.

(** What [en_unidad] says of a prediction. *)
Lemma en_unidad_shape (raw : Numpy.float32) :
  Numpy.en_unidad raw = true ->
  (exists s, raw = S754_zero s)
  \/ exists m e,
       raw = S754_finite false m e
       /\ -149 <= e <= -23 /\ Z.pos m < 16777216
       /\ (-149 < e -> 8388608 <= Z.pos m)
       /\ (e = -23 -> Z.pos m <= 8388608).
Proof.
  unfold Numpy.en_unidad, Numpy.es_float32. rewrite de_int_1.
  intros H. apply andb_prop in H as [H H1]. apply andb_prop in H as [Hv H0].
  apply unit_interval_shape; assumption.
Qed.

(** The percentage of a prediction in the unit interval, the value it is
    the integer part of, and where it stands with respect to the two
    thresholds. *)
Lemma porcentaje (raw : Numpy.float32) :
  Numpy.en_unidad raw = true ->
  exists pct v,
    int_of_spec (Numpy.mul_int raw 100) = ret pct
    /\ Spec.valor (Numpy.mul_int raw 100) = Some v
    /\ (inject_Z pct <= v)%Q /\ (v < inject_Z (pct + 1))%Q
    /\ 0 <= pct <= 100
    /\ (Numpy.ge_float raw 0.70 = true -> 70 <= pct)
    /\ (Numpy.ge_float raw 0.70 = false -> pct <= 69)
    /\ (Numpy.ge_float raw 0.30 = true -> 30 <= pct)
    /\ (Numpy.ge_float raw 0.30 = false -> pct <= 29).
Proof.
  intros Hu. unfold Numpy.ge_float. rewrite de_float_070, de_float_030.
  destruct (en_unidad_shape raw Hu)
    as [[s ->] | (m & e & -> & He & Hm & Hn & Ho)].
  - exists 0, 0%Q. rewrite mul_int_zero.
    cbn [int_of_spec Spec.valor SFleb SFcompare].
    repeat split; first [reflexivity | lia | discriminate | apply Qle_refl].
  - rewrite mul_int_finite.
    pose proof (SFleb_finite 11744051 (-24) m e) as F70.
    pose proof (SFleb_finite 10066330 (-25) m e) as F30.
    pose proof (producto_le_100 m e He Hm Ho) as B100.
    pose proof (fun H => producto_ge_70 m e He Hm Hn Ho H) as G70.
    pose proof (fun H => producto_lt_70 m e He Hm Hn Ho H) as L70.
    pose proof (fun H => producto_ge_30 m e He Hm Hn Ho H) as G30.
    pose proof (fun H => producto_lt_30 m e He Hm Hn Ho H) as L30.
    assert (exists v,
              int_of_spec (producto m e) = ret (SFtrunc (producto m e))
              /\ Spec.valor (producto m e) = Some v
              /\ (inject_Z (SFtrunc (producto m e)) <= v)%Q
              /\ (v < inject_Z (SFtrunc (producto m e) + 1))%Q)
      as (v & Hi & Hv & Hle & Hlt).
    { destruct (producto_shape m e He Hm Ho) as [-> | (q & e' & ->)].
      - exists 0%Q. cbn [int_of_spec Spec.valor SFtrunc].
        repeat split; first [reflexivity | apply Qle_refl].
      - exists (inject_Z (Z.pos q) * Qpower 2 e')%Q.
        cbn [int_of_spec Spec.valor SFtrunc cond_Zopp].
        destruct (FloatRound.trunc_bounds q e') as [Hle Hlt].
        repeat split; assumption. }
    exists (SFtrunc (producto m e)), v.
    split; [exact Hi|]. split; [exact Hv|].
    split; [exact Hle|]. split; [exact Hlt|].
    split; [exact B100|].
    split; [|split; [|split]].
    + intros H. apply F70 in H. apply G70. lia.
    + intros H. apply L70.
      destruct (Z_lt_le_dec e (-24)) as [L|L]; [left; exact L|].
      right. assert (e = -24) as E.
      { destruct (Z.eq_dec e (-24)) as [E|E]; [exact E|].
        exfalso.
        assert (SFleb (S754_finite false 11744051 (-24))
                  (S754_finite false m e) = true) as T
          by (apply F70; left; lia). congruence. }
      split; [exact E|].
      destruct (Z_lt_le_dec (Z.pos m) 11744051) as [L'|L']; [exact L'|].
      exfalso.
      assert (SFleb (S754_finite false 11744051 (-24))
                (S754_finite false m e) = true) as T
        by (apply F70; right; split; [lia | exact L']). congruence.
    + intros H. apply F30 in H. apply G30. lia.
    + intros H. apply L30.
      destruct (Z_lt_le_dec e (-25)) as [L|L]; [left; exact L|].
      right. assert (e = -25) as E.
      { destruct (Z.eq_dec e (-25)) as [E|E]; [exact E|].
        exfalso.
        assert (SFleb (S754_finite false 10066330 (-25))
                  (S754_finite false m e) = true) as T
          by (apply F30; left; lia). congruence. }
      split; [exact E|].
      destruct (Z_lt_le_dec (Z.pos m) 10066330) as [L'|L']; [exact L'|].
      exfalso.
      assert (SFleb (S754_finite false 10066330 (-25))
                (S754_finite false m e) = true) as T
        by (apply F30; right; split; [lia | exact L']). congruence.
Qed.

End FloatProduct.

(** ** The rules *)

Section RuleFacts.

Import Rules.

Ltac split_ifs :=
  repeat match goal with
  | |- context [fge ?a ?b] =>
      let E := fresh "E" in destruct (fge a b) eqn:E
  | |- context [flt ?a ?b] =>
      let E := fresh "E" in destruct (flt a b) eqn:E
  end.

(** C5. The hypertension rule returns the first band that matches, in the
    order: systolic >= 140 or diastolic >= 90 gives 92 (within 90..92),
    "Alto"; else systolic >= 130 or diastolic >= 80 gives 75, "Moderado";
    else systolic >= 120 and diastolic < 80 gives 45, "Moderado"; else 10,
    "Bajo". *)
Theorem hipertension_bands (sys_bp dia_bp : float) :
  let band1 := fge sys_bp 140 || fge dia_bp 90 in
  let band2 := fge sys_bp 130 || fge dia_bp 80 in
  let band3 := fge sys_bp 120 && flt dia_bp 80 in
  let r := calcular_hipertension sys_bp dia_bp in
  (band1 = true -> r = Riesgo 92 "Alto" /\ 90 <= probabilidad r <= 92)
  /\ (band1 = false -> band2 = true -> r = Riesgo 75 "Moderado")
  /\ (band1 = false -> band2 = false -> band3 = true ->
      r = Riesgo 45 "Moderado")
  /\ (band1 = false -> band2 = false -> band3 = false ->
      r = Riesgo 10 "Bajo").
Proof.
  cbv zeta. unfold calcular_hipertension.
  destruct (fge sys_bp 140 || fge dia_bp 90);
    destruct (fge sys_bp 130 || fge dia_bp 80);
    destruct (fge sys_bp 120 && flt dia_bp 80);
    repeat split; intros; try discriminate; try reflexivity; cbn; lia.
Qed.

(** C6. The hypertension rule is monotonic: raising systolic or diastolic
    pressure never lowers the probability. *)
Theorem hipertension_monotonic (s1 d1 s2 d2 : float) :
  PrimFloat.leb s1 s2 = true ->
  PrimFloat.leb d1 d2 = true ->
  probabilidad (calcular_hipertension s1 d1)
  <= probabilidad (calcular_hipertension s2 d2).
Proof.
  intros Hs Hd.
  pose proof (FloatOrder.fge_mono s1 s2 140 Hs) as S140.
  pose proof (FloatOrder.fge_mono s1 s2 130 Hs) as S130.
  pose proof (FloatOrder.fge_mono s1 s2 120 Hs) as S120.
  pose proof (FloatOrder.fge_mono d1 d2 90 Hd) as D90.
  pose proof (FloatOrder.fge_mono d1 d2 80 Hd) as D80.
  pose proof (FloatOrder.not_fge_flt d1 d2 80 Hd eq_refl) as L80.
  unfold calcular_hipertension.
  destruct (fge s1 140), (fge d1 90), (fge s1 130), (fge d1 80), (fge s1 120),
    (flt d1 80); cbn [orb andb];
    try (rewrite S140 by reflexivity); try (rewrite D90 by reflexivity);
    try (rewrite S130 by reflexivity); try (rewrite D80 by reflexivity);
    try (rewrite S120 by reflexivity);
    rewrite ?orb_true_r; cbn [orb andb probabilidad]; try lia;
    destruct (fge s2 140), (fge d2 90), (fge s2 130), (fge d2 80);
    cbn [orb andb probabilidad]; try lia;
    try (rewrite L80 by reflexivity); destruct (fge s2 120), (flt d2 80);
    cbn [orb andb probabilidad]; lia.
Qed.

Lemma hipertension_monotonic_witness :
  probabilidad (calcular_hipertension 125 70)
  <= probabilidad (calcular_hipertension 135 85).
Proof. apply hipertension_monotonic; reflexivity. Defined.

(** C10. The diabetes rule is monotonic in glucose. *)
Theorem diabetes_monotonic (g1 g2 : float) :
  PrimFloat.leb g1 g2 = true ->
  probabilidad (calcular_diabetes g1) <= probabilidad (calcular_diabetes g2).
Proof.
  intros Hg.
  pose proof (FloatOrder.fge_mono g1 g2 126 Hg) as G126.
  pose proof (FloatOrder.fge_mono g1 g2 100 Hg) as G100.
  unfold calcular_diabetes.
  destruct (fge g1 126), (fge g1 100);
    try (rewrite G126 by reflexivity); try (rewrite G100 by reflexivity);
    cbn [probabilidad]; try lia;
    destruct (fge g2 126), (fge g2 100); cbn [probabilidad]; lia.
Qed.

Lemma diabetes_monotonic_witness :
  probabilidad (calcular_diabetes 99) <= probabilidad (calcular_diabetes 126).
Proof. apply diabetes_monotonic; reflexivity. Defined.

(** C3. The dyslipidemia rule returns the assessment of highest probability
    among the sub-checks that trigger, [{10, "Bajo"}] when none triggers,
    and its probability is one of 10, 50, 60, 80, 85, 90. *)
Theorem dislipidemia_worst_triggered (ldl hdl total : float) :
  let r := calcular_dislipidemia ldl hdl total in
  let ts := Spec.triggered ldl hdl total in
  (ts = [] -> r = Riesgo 10 "Bajo")
  /\ (ts <> [] -> In r ts)
  /\ Forall (fun t => probabilidad t <= probabilidad r) ts
  /\ In (probabilidad r) [10; 50; 60; 80; 85; 90].
Proof.
  cbv zeta.
  unfold calcular_dislipidemia, riesgos_dislipidemia, Spec.triggered,
    Spec.sub_ldl, Spec.sub_hdl, Spec.sub_total.
  destruct (fge ldl 160), (fge ldl 130), (flt hdl 40), (fge total 240),
    (fge total 200); cbn;
    (split; [intros; try discriminate; reflexivity |]);
    (split; [intros; try congruence; tauto |]);
    (split; [repeat constructor; cbn; lia | tauto]).
Qed.

(** The closed form of the same rule: a priority cascade over the five
    thresholds. *)
Lemma dislipidemia_cascade (ldl hdl total : float) :
  calcular_dislipidemia ldl hdl total =
  if flt hdl 40 then Riesgo 90 "Alto"
  else if fge ldl 160 then Riesgo 85 "Alto"
  else if fge total 240 then Riesgo 80 "Alto"
  else if fge ldl 130 then Riesgo 60 "Moderado"
  else if fge total 200 then Riesgo 50 "Moderado"
  else Riesgo 10 "Bajo".
Proof.
  unfold calcular_dislipidemia, riesgos_dislipidemia.
  destruct (fge ldl 160), (fge ldl 130), (flt hdl 40), (fge total 240),
    (fge total 200); reflexivity.
Qed.

(** C4. The lifestyle rule gives one point each for smoker = true,
    activity = "Sedentario" and alcohol in {"Moderado", "Alto"}, and maps
    0, 1, 2, 3 points to 10/"Bajo", 30/"Bajo", 60/"Moderado", 90/"Alto". *)
Theorem estilo_vida_table (fumador : bool) (actividad alcohol : json) :
  let p := Spec.puntos fumador actividad alcohol in
  0 <= p <= 3
  /\ puntos_riesgo (JBool fumador) actividad alcohol = p
  /\ calcular_riesgo_estilo_vida (JBool fumador) actividad alcohol
     = Spec.tabla p
  /\ Spec.tabla 0 = Riesgo 10 "Bajo"
  /\ Spec.tabla 1 = Riesgo 30 "Bajo"
  /\ Spec.tabla 2 = Riesgo 60 "Moderado"
  /\ Spec.tabla 3 = Riesgo 90 "Alto".
Proof.
  cbv zeta.
  unfold calcular_riesgo_estilo_vida, puntos_riesgo, Spec.puntos, in_strs.
  cbn [existsb truthy]. rewrite orb_false_r.
  destruct fumador, (eq_str actividad "Sedentario"),
    (eq_str alcohol "Moderado"), (eq_str alcohol "Alto");
    cbn; repeat split; lia.
Qed.

End RuleFacts.

(** ** The handler *)

Section HandlerFacts.

Import Rules Handler Spec.

Lemma max_from_id_fold (l : list Z) (best : Z) :
  max_from id best l = fold_left Z.max l best.
Proof.
  revert best. induction l as [|x t IH]; intros best; cbn; [reflexivity|].
  rewrite IH. f_equal. unfold id.
  destruct (Z.ltb_spec best x); lia.
Qed.

Lemma max_from_five (a b c d e : Z) :
  max_from id a [b; c; d; e]
  = Z.max a (Z.max b (Z.max c (Z.max d e))).
Proof. rewrite max_from_id_fold. cbn. lia. Qed.

Ltac bind_ok :=
  lazymatch goal with
  | |- bind ?c _ = inr _ -> _ =>
      let x := fresh "x" in
      let Hx := fresh "H" x in
      destruct c as [?|x] eqn:Hx; cbn [bind]; [intros; discriminate|]
  end.

(** What a successful run of the [try] block has computed. *)
Lemma evaluate_body_inv E transform predict data r :
  evaluate_body E transform predict data = inr r ->
  exists raw c,
    componentes_de E data raw c
    /\ (exists input_data input_scaled,
          transform input_data = ret input_scaled
          /\ predict input_scaled = ret raw)
    /\ r = Informe
         (max_from id (probabilidad (coronaria c))
            [ probabilidad (hipertension c); probabilidad (diabetes c);
              probabilidad (dislipidemia c); probabilidad (estilo_vida c) ])
         "1.2-hibrido-avanzado"
         [ Entrada "Coronary Artery Disease"
             (probabilidad (coronaria c)) (nivel (coronaria c));
           Entrada "Hypertension"
             (probabilidad (hipertension c)) (nivel (hipertension c));
           Entrada "Type 2 Diabetes"
             (probabilidad (diabetes c)) (nivel (diabetes c));
           Entrada "Dislipidemia (Colesterol)"
             (probabilidad (dislipidemia c)) (nivel (dislipidemia c));
           Entrada "Riesgo por Estilo de Vida"
             (probabilidad (estilo_vida c)) (nivel (estilo_vida c)) ].
Proof.
  unfold evaluate_body. cbv zeta.
  repeat bind_ok.
  intros [= <-].
  eexists _, (Componentes _ _ _ _ _). split; [|split].
  - unfold componentes_de. do 10 eexists.
    repeat (split; [eassumption|]). reflexivity.
  - do 2 eexists. split; eassumption.
  - reflexivity.
Qed.

Lemma evaluate_risk_inv E data r :
  evaluate_risk E data = Success r ->
  exists transform predict,
    scaler E = Some transform /\ model E = Some predict
    /\ evaluate_body E transform predict data = inr r.
Proof.
  unfold evaluate_risk.
  destruct (model E) as [predict|]; [|discriminate].
  destruct (scaler E) as [transform|]; [|discriminate].
  destruct (evaluate_body E transform predict data) as [[]|r'] eqn:Hb;
    try discriminate.
  intros [= <-]. eauto.
Qed.

Lemma evaluate_risk_Success E data r :
  evaluate_risk E data = Success r ->
  exists raw c,
    componentes_de E data raw c
    /\ r = Informe
         (max_probabilidad c)
         "1.2-hibrido-avanzado"
         [ Entrada "Coronary Artery Disease"
             (probabilidad (coronaria c)) (nivel (coronaria c));
           Entrada "Hypertension"
             (probabilidad (hipertension c)) (nivel (hipertension c));
           Entrada "Type 2 Diabetes"
             (probabilidad (diabetes c)) (nivel (diabetes c));
           Entrada "Dislipidemia (Colesterol)"
             (probabilidad (dislipidemia c)) (nivel (dislipidemia c));
           Entrada "Riesgo por Estilo de Vida"
             (probabilidad (estilo_vida c)) (nivel (estilo_vida c)) ].
Proof.
  intros H. apply evaluate_risk_inv in H as (tr & pr & _ & _ & H).
  apply evaluate_body_inv in H as (raw & c & Hc & _ & ->).
  exists raw, c. split; [exact Hc|].
  rewrite max_from_five. reflexivity.
Qed.

(** C1. In every report the overall risk is exactly the maximum of the five
    component probabilities: the machine-learned coronary percentage and
    the four rule probabilities. *)
Theorem overall_risk_is_max E data r :
  evaluate_risk E data = Success r ->
  exists raw c,
    componentes_de E data raw c
    /\ map probabilidad_enfermedad (probabilidades_enfermedades r)
       = [ probabilidad (coronaria c); probabilidad (hipertension c);
           probabilidad (diabetes c); probabilidad (dislipidemia c);
           probabilidad (estilo_vida c) ]
    /\ riesgo_general r = max_probabilidad c.
Proof.
  intros H. apply evaluate_risk_Success in H as (raw & c & Hc & ->).
  exists raw, c. repeat split. exact Hc.
Qed.

Lemma overall_risk_is_max_witness :
  exists raw c,
    componentes_de (Ejemplo.entorno_fijo 0.6999) (JObj Ejemplo.paciente) raw c
    /\ map probabilidad_enfermedad
         (probabilidades_enfermedades Ejemplo.informe_paciente)
       = [ probabilidad (coronaria c); probabilidad (hipertension c);
           probabilidad (diabetes c); probabilidad (dislipidemia c);
           probabilidad (estilo_vida c) ]
    /\ riesgo_general Ejemplo.informe_paciente = max_probabilidad c.
Proof.
  apply (overall_risk_is_max (Ejemplo.entorno_fijo 0.6999)
           (JObj Ejemplo.paciente) Ejemplo.informe_paciente).
  vm_compute. reflexivity.
Defined.

(** C8. The per-condition sequence of a report has fixed membership and
    order: coronary artery disease, hypertension, type 2 diabetes,
    dyslipidemia, lifestyle risk; each entry carries the probability and
    the level of its own condition. *)
Theorem report_conditions_order E data r :
  evaluate_risk E data = Success r ->
  map enfermedad (probabilidades_enfermedades r)
  = [ "Coronary Artery Disease"; "Hypertension"; "Type 2 Diabetes";
      "Dislipidemia (Colesterol)"; "Riesgo por Estilo de Vida" ]
  /\ exists raw c,
       componentes_de E data raw c
       /\ map (fun e => Riesgo (probabilidad_enfermedad e) (nivel_enfermedad e))
            (probabilidades_enfermedades r)
          = [ coronaria c; hipertension c; diabetes c; dislipidemia c;
              estilo_vida c ].
Proof.
  intros H. apply evaluate_risk_Success in H as (raw & c & Hc & ->).
  split; [reflexivity|].
  exists raw, c. split; [exact Hc|].
  destruct c as [[] [] [] [] []]. reflexivity.
Qed.

Lemma report_conditions_order_witness :
  map enfermedad (probabilidades_enfermedades Ejemplo.informe_paciente)
  = [ "Coronary Artery Disease"; "Hypertension"; "Type 2 Diabetes";
      "Dislipidemia (Colesterol)"; "Riesgo por Estilo de Vida" ]
  /\ exists raw c,
       componentes_de (Ejemplo.entorno_fijo 0.6999) (JObj Ejemplo.paciente)
         raw c
       /\ map (fun e => Riesgo (probabilidad_enfermedad e) (nivel_enfermedad e))
            (probabilidades_enfermedades Ejemplo.informe_paciente)
          = [ coronaria c; hipertension c; diabetes c; dislipidemia c;
              estilo_vida c ].
Proof.
  apply (report_conditions_order (Ejemplo.entorno_fijo 0.6999)
           (JObj Ejemplo.paciente) Ejemplo.informe_paciente).
  vm_compute. reflexivity.
Defined.

Lemma hipertension_ge_10 s d : 10 <= probabilidad (calcular_hipertension s d).
Proof.
  unfold calcular_hipertension.
  destruct (fge s 140 || fge d 90), (fge s 130 || fge d 80),
    (fge s 120 && flt d 80); cbn; lia.
Qed.

Lemma diabetes_ge_10 g : 10 <= probabilidad (calcular_diabetes g).
Proof.
  unfold calcular_diabetes.
  destruct (fge g 126), (fge g 100); cbn; lia.
Qed.

Lemma dislipidemia_ge_10 l h t :
  10 <= probabilidad (calcular_dislipidemia l h t).
Proof.
  rewrite dislipidemia_cascade.
  destruct (flt h 40), (fge l 160), (fge t 240), (fge l 130), (fge t 200);
    cbn; lia.
Qed.

Lemma estilo_vida_ge_10 f a c :
  10 <= probabilidad (calcular_riesgo_estilo_vida f a c).
Proof.
  unfold calcular_riesgo_estilo_vida. cbv zeta.
  destruct (puntos_riesgo f a c =? 3), (puntos_riesgo f a c =? 2),
    (puntos_riesgo f a c =? 1); cbn; lia.
Qed.

(** C9. Whatever the model predicts, the overall risk of a report is at
    least 10, because each of the four rule probabilities is. *)
Theorem overall_risk_at_least_10 E data r :
  evaluate_risk E data = Success r ->
  10 <= riesgo_general r
  /\ Forall (fun e => 10 <= probabilidad_enfermedad e)
       (tail (probabilidades_enfermedades r)).
Proof.
  intros H. apply evaluate_risk_Success in H as (raw & c & Hc & ->).
  destruct Hc as (pct & s & d & g & l & h & t & f & a & al & Hc).
  destruct Hc as (_ & _ & _ & _ & _ & _ & _ & _ & _ & _ & ->).
  cbn [riesgo_general probabilidades_enfermedades tail].
  unfold max_probabilidad.
  cbn [coronaria hipertension diabetes dislipidemia estilo_vida].
  pose proof (hipertension_ge_10 s d).
  pose proof (diabetes_ge_10 g).
  pose proof (dislipidemia_ge_10 l h t).
  pose proof (estilo_vida_ge_10 f a al).
  split; [lia|].
  repeat constructor; assumption.
Qed.

Lemma overall_risk_at_least_10_witness :
  10 <= riesgo_general Ejemplo.informe_paciente
  /\ Forall (fun e => 10 <= probabilidad_enfermedad e)
       (tail (probabilidades_enfermedades Ejemplo.informe_paciente)).
Proof.
  apply (overall_risk_at_least_10 (Ejemplo.entorno_fijo 0.6999)
           (JObj Ejemplo.paciente)).
  vm_compute. reflexivity.
Defined.

(** A valid input always yields a report. *)
Lemma evaluate_risk_valida E m :
  entrada_valida E m -> exists r, evaluate_risk E (JObj m) = Success r.
Proof.
  intros (Hnum & Hcat & Hbmi & tr & pr & Htr & Hpr & Ttr & Tpr).
  unfold campos_numericos in Hnum. unfold campos_categoricos in Hcat.
  repeat match goal with
         | H : Forall _ (_ :: _) |- _ =>
             apply Forall_cons_iff in H as [? H]
         end.
  repeat match goal with
         | H : numerico _ _ _ |- _ => destruct H as [? H]
         | H : presente _ _ |- _ => destruct H as [? H]
         end.
  match goal with
  | Ha : float_field E (JObj m) "altura_cm" = ret ?a,
    Hp : float_field E (JObj m) "peso_kg" = ret ?p |- _ =>
      assert (exists altura_m, truediv a 100 = ret altura_m) as [am Ham]
        by (unfold truediv; eexists; reflexivity);
      destruct (Hbmi _ _ _ Ha Ham Hp) as (a2 & bmi & Hpow & Hdiv)
  end.
  unfold evaluate_risk. rewrite Htr, Hpr.
  unfold evaluate_body.
  repeat match goal with
         | H : float_field _ _ _ = _ |- _ => rewrite H; clear H
         | H : getitem _ _ = _ |- _ => rewrite H; clear H
         end.
  cbn [bind ret]. rewrite Ham. cbn [bind ret]. rewrite Hpow. cbn [bind ret].
  rewrite Hdiv. cbn [bind ret]. cbv zeta.
  match goal with
  | |- context [tr ?v] => destruct (Ttr v) as [y ->]
  end.
  cbn [bind ret].
  destruct (Tpr y) as (raw & -> & Hu). cbn [bind ret].
  destruct (FloatProduct.porcentaje raw Hu) as (pct & _ & -> & _).
  cbn [bind ret]. eexists. reflexivity.
Qed.

(** *** Missing fields *)

Lemma py_float_error E v e :
  py_float E v = inl e -> forall k, e <> KeyError k.
Proof.
  intros H k ->. revert H. destruct v; cbn; try discriminate.
  - unfold float_of_Z. destruct (is_infinity _); discriminate.
  - destruct (float_of_str E s); discriminate.
Qed.

Lemma truediv_error x y e :
  truediv x y = inl e -> forall k, e <> KeyError k.
Proof.
  intros H k ->. revert H. unfold truediv.
  destruct (PrimFloat.eqb y 0); discriminate.
Qed.

Lemma pow_error E x y e : pow E x y = inl e -> forall k, e <> KeyError k.
Proof.
  intros H k ->. revert H. unfold pow.
  destruct (float_pow E x y); discriminate.
Qed.

Lemma int_of_spec_error x e :
  int_of_spec x = inl e -> forall k, e <> KeyError k.
Proof.
  intros H k ->. revert H. destruct x; discriminate.
Qed.

Ltac head_of res :=
  lazymatch res with
  | bind ?c _ => head_of c
  | _ => res
  end.





Lemma float_field_None E m k :
  m !! k = None -> float_field E (JObj m) k = raise (KeyError k).
Proof. intros H. unfold float_field, getitem. rewrite H. reflexivity. Qed.

Lemma getitem_None m k :
  m !! k = None -> getitem (JObj m) k = raise (KeyError k).
Proof. intros H. unfold getitem. rewrite H. reflexivity. Qed.

Lemma getitem_Some m k v : m !! k = Some v -> getitem (JObj m) k = ret v.
Proof. intros H. unfold getitem. rewrite H. reflexivity. Qed.

Lemma truediv_100 x : truediv x 100 = ret (x / 100)%float.
Proof. reflexivity. Qed.

(** The thirteen field names need no escaping: the message names the
    field between single quotes, whatever the interpreter. *)
Lemma falta_el_campo_requerido E k :
  In k campos_requeridos ->
  falta_el_campo E k = "Falta el campo en los datos: '" +:+ k +:+ "'".
Proof.
  unfold campos_requeridos. cbn [In]. intros H.
  repeat destruct H as [<- | H]; try contradiction; reflexivity.
Qed.

(** The lookups that [Hk] settles: the fields before the first absent one
    are present, and that one is absent. *)
Ltac lookups m Hk :=
  unfold primer_faltante, campos_requeridos in Hk;
  cbn [find] in Hk; unfold falta in Hk;
  repeat match type of Hk with
         | context [m !! ?f] =>
             let Hf := fresh "Hf" in
             destruct (m !! f) eqn:Hf; cbv beta iota in Hk;
             try discriminate Hk
         end.

Ltac en_lista := cbn [In]; repeat (first [left; reflexivity | right]).

(** The conversion of the measurement [f], when it is read before the
    first absent field. *)
Ltac medida Hnum f :=
  try (let x := fresh "x" in
       let Hx := fresh "Hx" in
       destruct (Hnum f ltac:(en_lista)
                   ltac:(unfold campos_numericos; en_lista)) as [x Hx]).

Ltac avanza E m :=
  repeat progress
    (repeat match goal with
            | H : float_field E (JObj m) _ = _ |- _ => rewrite H
            | H : getitem (JObj m) _ = _ |- _ => rewrite H
            | H : pow E _ _ = _ |- _ => rewrite H
            | H : truediv _ _ = _ |- _ => rewrite H
            end;
     rewrite ?truediv_100;
     cbn [bind ret raise]).

(** When nothing fails before the first absent field is read, the [try]
    block raises the [KeyError] of that field. *)
Lemma evaluate_body_first_missing E transform predict m k :
  primer_faltante m = Some k ->
  sin_fallo_previo E transform predict m k ->
  evaluate_body E transform predict (JObj m) = raise (KeyError k).
Proof.
  intros Hk (Hnum & Himc & Hinf).
  assert (In k campos_requeridos) as Hin
    by (apply find_some in Hk; tauto).
  unfold campos_requeridos in Hin. cbn [In] in Hin.
  repeat destruct Hin as [<- | Hin]; try contradiction;
    match type of Hk with
    | _ = Some ?k =>
        let l := eval vm_compute in (leidos_antes k) in
        change (leidos_antes k) with l in Hnum, Himc, Hinf
    end;
    medida Hnum "altura_cm"; medida Hnum "peso_kg"; medida Hnum "edad";
    medida Hnum "presion_sistolica"; medida Hnum "presion_diastolica";
    medida Hnum "colesterol_total"; medida Hnum "glucosa";
    medida Hnum "colesterol_ldl"; medida Hnum "colesterol_hdl";
    try (specialize (Himc ltac:(en_lista));
         match goal with
         | Ha : float_field E (JObj m) "altura_cm" = ret ?a,
           Hp : float_field E (JObj m) "peso_kg" = ret ?p |- _ =>
             destruct (Himc a _ p Ha (truediv_100 a) Hp)
               as (a2 & bmi & Hpow & Hdiv)
         end);
    try (specialize (Hinf ltac:(en_lista)); destruct Hinf as [Ttr Tpr]);
    lookups m Hk;
    repeat match goal with
           | H : m !! ?f = None |- _ =>
               pose proof (float_field_None E m f H);
               apply getitem_None in H
           | H : m !! ?f = Some _ |- _ => apply getitem_Some in H
           end;
    unfold evaluate_body; cbv zeta;
    avanza E m;
    try (match goal with
         | |- context [transform ?v] => destruct (Ttr v) as [y ->]
         end;
         cbn [bind ret raise];
         destruct (Tpr y) as (raw & pct & -> & Hpct);
         cbn [bind ret raise]; rewrite Hpct; avanza E m);
    reflexivity.
Qed.




(** Nothing is read before [altura_cm]: when it is absent and the
    resources are loaded, the answer is always the missing-field error. *)
Lemma missing_altura_cm E m transform predict :
  scaler E = Some transform -> model E = Some predict ->
  m !! "altura_cm" = None ->
  evaluate_risk E (JObj m) = MissingField (falta_el_campo E "altura_cm").
Proof.
  intros Htr Hpr Hm. unfold evaluate_risk. rewrite Htr, Hpr.
  rewrite (evaluate_body_first_missing E transform predict m "altura_cm").
  - reflexivity.
  - unfold primer_faltante, campos_requeridos. cbn [find]. unfold falta.
    rewrite Hm. reflexivity.
  - split; [|split]; intros; exfalso;
      match goal with
      | H : In _ (leidos_antes "altura_cm") |- _ => exact H
      end.
Qed.

(** *** The coronary entry *)

(** C2. For a valid input, whose model predicts a probability [raw] in
    [0,1], the first entry of the report is the coronary one; its
    percentage is the integer part of the product [raw * 100] as the
    handler computes it (truncated, not rounded), and its level comes from
    [raw] itself: "Alto" from 0.70, "Moderado" from 0.30, else "Bajo".  In
    particular a prediction of 0.6999 is reported as 69 and "Moderado",
    and a prediction of 0.70 as 70 and "Alto". *)
Theorem coronary_adapter_truncates E m :
  entrada_valida E m ->
  (exists r raw pct lvl v,
     evaluate_risk E (JObj m) = Success r
     /\ prediccion_de E raw
     /\ head (probabilidades_enfermedades r)
        = Some (Entrada "Coronary Artery Disease" pct lvl)
     /\ valor (Numpy.mul_int raw 100) = Some v
     /\ 0 <= pct
     /\ (inject_Z pct <= v)%Q /\ (v < inject_Z (pct + 1))%Q
     /\ (Numpy.ge_float raw 0.70 = true -> lvl = "Alto")
     /\ (Numpy.ge_float raw 0.70 = false ->
         Numpy.ge_float raw 0.30 = true -> lvl = "Moderado")
     /\ (Numpy.ge_float raw 0.70 = false ->
         Numpy.ge_float raw 0.30 = false -> lvl = "Bajo"))
  /\ primera_entrada
       (evaluate_risk (Ejemplo.entorno_fijo 0.6999) (JObj Ejemplo.paciente))
     = Some (Entrada "Coronary Artery Disease" 69 "Moderado")
  /\ primera_entrada
       (evaluate_risk (Ejemplo.entorno_fijo 0.70) (JObj Ejemplo.paciente))
     = Some (Entrada "Coronary Artery Disease" 70 "Alto").
Proof.
  intros Hv. split; [|split; vm_compute; reflexivity].
  destruct (evaluate_risk_valida E m Hv) as [r Hr].
  destruct Hv as (_ & _ & _ & tr' & pr' & Htr' & Hpr' & _ & Tpr).
  pose proof Hr as Hr0.
  apply evaluate_risk_inv in Hr as (tr & pr & Htr & Hpr & Hb).
  assert (pr = pr') as -> by congruence.
  apply evaluate_body_inv in Hb as (raw & c & Hc & (x & y & Hx & Hy) & ->).
  destruct (Tpr y) as (raw' & Hy' & Hu).
  assert (raw' = raw) as -> by (unfold ret in *; congruence).
  destruct (FloatProduct.porcentaje raw Hu)
    as (pct' & v & Hp' & Hval & Hle & Hlt & Hr' & _).
  destruct Hc as (pct & s & d & g & l & h & t & f & a & al & Hc).
  destruct Hc as (Hp & _ & _ & _ & _ & _ & _ & _ & _ & _ & ->).
  assert (pct = pct') as -> by (unfold ret in *; congruence).
  eexists. exists raw, pct', (nivel_riesgo_coronario raw), v.
  split; [exact Hr0|].
  split; [exists tr, pr', x, y; repeat split; assumption|].
  split; [reflexivity|].
  split; [exact Hval|].
  split; [lia|]. split; [exact Hle|]. split; [exact Hlt|].
  unfold nivel_riesgo_coronario.
  repeat split.
  - intros ->. reflexivity.
  - intros -> ->. reflexivity.
  - intros -> ->. reflexivity.
Qed.

Lemma coronary_adapter_truncates_witness :
  exists r raw pct lvl v,
    evaluate_risk (Ejemplo.entorno_fijo 0.6999) (JObj Ejemplo.paciente)
    = Success r
    /\ prediccion_de (Ejemplo.entorno_fijo 0.6999) raw
    /\ head (probabilidades_enfermedades r)
       = Some (Entrada "Coronary Artery Disease" pct lvl)
    /\ valor (Numpy.mul_int raw 100) = Some v
    /\ 0 <= pct
    /\ (inject_Z pct <= v)%Q /\ (v < inject_Z (pct + 1))%Q
    /\ (Numpy.ge_float raw 0.70 = true -> lvl = "Alto")
    /\ (Numpy.ge_float raw 0.70 = false ->
        Numpy.ge_float raw 0.30 = true -> lvl = "Moderado")
    /\ (Numpy.ge_float raw 0.70 = false ->
        Numpy.ge_float raw 0.30 = false -> lvl = "Bajo").
Proof.
  apply (coronary_adapter_truncates (Ejemplo.entorno_fijo 0.6999)
           Ejemplo.paciente).
  split; [|split; [|split]].
  - repeat constructor; eexists; vm_compute; reflexivity.
  - repeat constructor; eexists; vm_compute; reflexivity.
  - intros a am p Ha Ham Hp.
    vm_compute in Ha. injection Ha as <-.
    vm_compute in Hp. injection Hp as <-.
    vm_compute in Ham. injection Ham as <-.
    do 2 eexists. split; vm_compute; reflexivity.
  - exists (fun v => ret v), (fun _ => ret (Numpy.de_float 0.6999)).
    repeat split; try reflexivity.
    + intros x. eexists. reflexivity.
    + intros y. eexists. split; [reflexivity | vm_compute; reflexivity].
Defined.

End HandlerFacts.

Example evaluate_paciente :
  Handler.evaluate_risk (Ejemplo.entorno_fijo 0.6999) (JObj Ejemplo.paciente)
  = Success Ejemplo.informe_paciente.
Proof. vm_compute. reflexivity. Qed.

Example evaluate_sin_hdl :
  Handler.evaluate_risk (Ejemplo.entorno_fijo 0.6999) (JObj Ejemplo.sin_hdl)
  = MissingField "Falta el campo en los datos: 'colesterol_hdl'".
Proof. vm_compute. reflexivity. Qed.

Example evaluate_altura_nula :
  Handler.evaluate_risk (Ejemplo.entorno_fijo 0.6999) (JObj Ejemplo.altura_nula)
  = InternalError TypeError.
Proof. vm_compute. reflexivity. Qed.

Example paciente_valido :
  Spec.entrada_valida (Ejemplo.entorno_fijo 0.6999) Ejemplo.paciente.
Proof.
  split; [|split; [|split]].
  - repeat constructor; eexists; vm_compute; reflexivity.
  - repeat constructor; eexists; vm_compute; reflexivity.
  - intros a am p Ha Ham Hp.
    vm_compute in Ha. injection Ha as <-.
    vm_compute in Hp. injection Hp as <-.
    vm_compute in Ham. injection Ham as <-.
    do 2 eexists. split; vm_compute; reflexivity.
  - exists (fun v => ret v), (fun _ => ret (Numpy.de_float 0.6999)).
    repeat split; try reflexivity.
    + intros x. eexists. reflexivity.
    + intros y. eexists. split; [reflexivity | vm_compute; reflexivity].
Qed.

(** * Further properties of the rules *)

Module FloatFacts.

Import FloatOrder.

Lemma SFleb_ltb_trans x y z :
  SFleb x y = true -> SFltb y z = true -> SFltb x z = true.
Proof.
  unfold SFleb, SFltb.
  destruct x as [sx|sx| |sx mx ex], y as [sy|sy| |sy my ey],
           z as [sz|sz| |sz mz ez]; by_shape;
    intros Hxy Hyz; order_cases; simpl in *; subst;
    try discriminate; try reflexivity; lia.
Qed.

Lemma SFleb_not_ltb x y : SFleb x y = true -> SFltb y x = false.
Proof.
  unfold SFleb, SFltb.
  destruct x as [sx|sx| |sx mx ex], y as [sy|sy| |sy my ey]; by_shape;
    intros Hxy; order_cases; simpl in *; subst;
    try discriminate; try reflexivity; lia.
Qed.

Lemma SFeqb_refl_nan x : SFeqb x x = false -> x = S754_nan.
Proof.
  unfold SFeqb.
  destruct x as [sx|sx| |sx mx ex]; by_shape;
    intros H; order_cases; try discriminate; lia.
Qed.

Lemma SFeqb_leb x : SFeqb x x = true -> SFleb x x = true.
Proof.
  unfold SFeqb, SFleb. destruct (SFcompare x x) as [[]|]; congruence.
Qed.

(** [b <= a] and [a < c] give [b < c]. *)
Lemma flt_mono (a b c : float) :
  PrimFloat.leb b a = true -> flt a c = true -> flt b c = true.
Proof.
  unfold flt. rewrite leb_spec, !ltb_spec. apply SFleb_ltb_trans.
Qed.

(** [x >= c] excludes [x < c]. *)
Lemma fge_not_flt (x c : float) : fge x c = true -> flt x c = false.
Proof.
  unfold fge, flt. rewrite leb_spec, ltb_spec. apply SFleb_not_ltb.
Qed.

(** For a number [x] and a number [c], [x >= c] failing means [x < c]. *)
Lemma numero_not_fge (x c : float) :
  Bandas.es_numero x = true -> Bandas.es_numero c = true ->
  fge x c = false -> flt x c = true.
Proof.
  unfold Bandas.es_numero, fge, flt.
  rewrite !FloatAxioms.eqb_spec, leb_spec, ltb_spec. intros Hx Hc.
  apply SFleb_total; apply SFeqb_leb; assumption.
Qed.

(** NaN compares false with everything. *)
Lemma nan_fge (x c : float) : Bandas.es_numero x = false -> fge x c = false.
Proof.
  unfold Bandas.es_numero, fge. rewrite FloatAxioms.eqb_spec, leb_spec. intros H.
  apply SFeqb_refl_nan in H. rewrite H.
  unfold SFleb. destruct (Prim2SF c); reflexivity.
Qed.

Lemma nan_flt (x c : float) : Bandas.es_numero x = false -> flt x c = false.
Proof.
  unfold Bandas.es_numero, flt. rewrite FloatAxioms.eqb_spec, ltb_spec. intros H.
  apply SFeqb_refl_nan in H. rewrite H. reflexivity.
Qed.

End FloatFacts.

Section MoreRuleFacts.

Import Rules.

(** X1. In the four rules the level is a function of the probability:
    "Alto" from 80, "Moderado" from 45, "Bajo" below. *)
Theorem rule_level_follows_probability
    (sys_bp dia_bp glucosa ldl hdl total : float)
    (fumador actividad alcohol : json) :
  Forall (fun r => nivel r = Bandas.nivel_de (probabilidad r))
    [ calcular_hipertension sys_bp dia_bp;
      calcular_diabetes glucosa;
      calcular_dislipidemia ldl hdl total;
      calcular_riesgo_estilo_vida fumador actividad alcohol ].
Proof.
  repeat constructor.
  - unfold calcular_hipertension.
    destruct (fge sys_bp 140 || fge dia_bp 90),
      (fge sys_bp 130 || fge dia_bp 80), (fge sys_bp 120 && flt dia_bp 80);
      reflexivity.
  - unfold calcular_diabetes.
    destruct (fge glucosa 126), (fge glucosa 100); reflexivity.
  - rewrite dislipidemia_cascade.
    destruct (flt hdl 40), (fge ldl 160), (fge total 240), (fge ldl 130),
      (fge total 200); reflexivity.
  - unfold calcular_riesgo_estilo_vida. cbv zeta.
    destruct (puntos_riesgo fumador actividad alcohol =? 3),
      (puntos_riesgo fumador actividad alcohol =? 2),
      (puntos_riesgo fumador actividad alcohol =? 1); reflexivity.
Qed.

(** X2. When the diastolic pressure is a number, the test [dia_bp < 80] of
    the third band is redundant: the rule is the cascade on
    [sys >= 140 or dia >= 90], [sys >= 130 or dia >= 80], [sys >= 120]. *)
Theorem hipertension_numeric_diastolic (sys_bp dia_bp : float) :
  Bandas.es_numero dia_bp = true ->
  calcular_hipertension sys_bp dia_bp =
  if fge sys_bp 140 || fge dia_bp 90 then Riesgo 92 "Alto"
  else if fge sys_bp 130 || fge dia_bp 80 then Riesgo 75 "Moderado"
  else if fge sys_bp 120 then Riesgo 45 "Moderado"
  else Riesgo 10 "Bajo".
Proof.
  intros Hd. unfold calcular_hipertension.
  pose proof (FloatFacts.numero_not_fge dia_bp 80 Hd eq_refl) as L80.
  destruct (fge sys_bp 140), (fge dia_bp 90), (fge sys_bp 130),
    (fge dia_bp 80); cbn [orb]; try reflexivity.
  rewrite L80 by reflexivity. rewrite andb_true_r. reflexivity.
Qed.

Lemma hipertension_numeric_diastolic_witness :
  calcular_hipertension 125 70 =
  if fge 125 140 || fge 70 90 then Riesgo 92 "Alto"
  else if fge 125 130 || fge 70 80 then Riesgo 75 "Moderado"
  else if fge 125 120 then Riesgo 45 "Moderado"
  else Riesgo 10 "Bajo".
Proof. apply hipertension_numeric_diastolic. reflexivity. Defined.

(** X3. When the diastolic pressure is NaN the rule is decided by the
    systolic pressure alone and never answers 45: a systolic pressure
    between 120 and 130 is then scored 10, "Bajo". *)
Theorem hipertension_nan_diastolic (sys_bp dia_bp : float) :
  Bandas.es_numero dia_bp = false ->
  calcular_hipertension sys_bp dia_bp =
  if fge sys_bp 140 then Riesgo 92 "Alto"
  else if fge sys_bp 130 then Riesgo 75 "Moderado"
  else Riesgo 10 "Bajo".
Proof.
  intros Hd. unfold calcular_hipertension.
  rewrite !(FloatFacts.nan_fge dia_bp) by exact Hd.
  rewrite (FloatFacts.nan_flt dia_bp) by exact Hd.
  rewrite !orb_false_r, andb_false_r. reflexivity.
Qed.

Lemma hipertension_nan_diastolic_witness :
  calcular_hipertension 125 nan = Riesgo 10 "Bajo".
Proof. apply (hipertension_nan_diastolic 125 nan). reflexivity. Defined.

(** X4. The dyslipidemia rule is monotonic: raising LDL or total
    cholesterol, or lowering HDL, never lowers the probability. *)
Theorem dislipidemia_monotonic (ldl1 hdl1 total1 ldl2 hdl2 total2 : float) :
  PrimFloat.leb ldl1 ldl2 = true ->
  PrimFloat.leb hdl2 hdl1 = true ->
  PrimFloat.leb total1 total2 = true ->
  probabilidad (calcular_dislipidemia ldl1 hdl1 total1)
  <= probabilidad (calcular_dislipidemia ldl2 hdl2 total2).
Proof.
  intros Hl Hh Ht.
  pose proof (FloatOrder.fge_mono ldl1 ldl2 160 Hl) as L160.
  pose proof (FloatOrder.fge_mono ldl1 ldl2 130 Hl) as L130.
  pose proof (FloatOrder.fge_mono total1 total2 240 Ht) as T240.
  pose proof (FloatOrder.fge_mono total1 total2 200 Ht) as T200.
  pose proof (FloatFacts.flt_mono hdl1 hdl2 40 Hh) as H40.
  rewrite !dislipidemia_cascade.
  destruct (flt hdl1 40), (fge ldl1 160), (fge total1 240), (fge ldl1 130),
    (fge total1 200);
    try (rewrite H40 by reflexivity); try (rewrite L160 by reflexivity);
    try (rewrite T240 by reflexivity); try (rewrite L130 by reflexivity);
    try (rewrite T200 by reflexivity);
    destruct (flt hdl2 40), (fge ldl2 160), (fge total2 240), (fge ldl2 130),
      (fge total2 200); cbn [probabilidad]; lia.
Qed.

Lemma dislipidemia_monotonic_witness :
  probabilidad (calcular_dislipidemia 120 55 190)
  <= probabilidad (calcular_dislipidemia 135 50 210).
Proof. apply dislipidemia_monotonic; reflexivity. Defined.

(** X5. The lifestyle rule is monotonic in its three indicators: a payload
    that has every risk factor of another one is scored at least as high. *)
Theorem estilo_vida_monotonic (f1 a1 c1 f2 a2 c2 : json) :
  Forall2 (fun b1 b2 : bool => b1 = true -> b2 = true)
    (Bandas.indicadores f1 a1 c1) (Bandas.indicadores f2 a2 c2) ->
  probabilidad (calcular_riesgo_estilo_vida f1 a1 c1)
  <= probabilidad (calcular_riesgo_estilo_vida f2 a2 c2).
Proof.
  unfold Bandas.indicadores. intros H.
  apply Forall2_cons_iff in H as [Hf H].
  apply Forall2_cons_iff in H as [Ha H].
  apply Forall2_cons_iff in H as [Hc _].
  cbv beta in Hf, Ha, Hc.
  unfold calcular_riesgo_estilo_vida, puntos_riesgo. cbv zeta.
  destruct (truthy f1), (eq_str a1 "Sedentario"),
    (in_strs c1 ["Moderado"; "Alto"]);
    try (rewrite Hf by reflexivity); try (rewrite Ha by reflexivity);
    try (rewrite Hc by reflexivity);
    destruct (truthy f2), (eq_str a2 "Sedentario"),
      (in_strs c2 ["Moderado"; "Alto"]); vm_compute; congruence.
Qed.

Lemma estilo_vida_monotonic_witness :
  probabilidad
    (calcular_riesgo_estilo_vida (JBool false) (JStr "Sedentario") (JStr "No"))
  <= probabilidad
       (calcular_riesgo_estilo_vida (JBool true) (JStr "Sedentario")
          (JStr "Alto")).
Proof.
  apply estilo_vida_monotonic. repeat constructor; cbn; congruence.
Defined.

End MoreRuleFacts.

(** * Further properties of the handler *)

Section MoreHandlerFacts.

Import Rules Handler Spec.

(** X7. With the resources loaded, a payload that is not a JSON object is
    answered with the internal error for [TypeError]. *)
Theorem non_object_payload E data transform predict :
  scaler E = Some transform -> model E = Some predict ->
  (forall m, data <> JObj m) ->
  evaluate_risk E data = InternalError TypeError.
Proof.
  intros Htr Hpr Hobj. unfold evaluate_risk. rewrite Htr, Hpr.
  destruct data; try reflexivity.
  exfalso. eapply Hobj. reflexivity.
Qed.

Lemma non_object_payload_witness :
  evaluate_risk (Ejemplo.entorno_fijo 0.6999) (JArr [JInt 1])
  = InternalError TypeError.
Proof.
  eapply non_object_payload; try reflexivity. intros m. discriminate.
Defined.

Ltac head_of res :=
  lazymatch res with
  | bind ?c _ => head_of c
  | _ => res
  end.

(** One step of the [try] block, looking for the origin of a [KeyError]. *)
Ltac trace_step m :=
  cbn [bind ret raise];
  lazymatch goal with
  | |- ?res = inl (KeyError ?k) -> _ =>
      let h := head_of res in
      lazymatch h with
      | match m !! ?f with Some _ => _ | None => _ end =>
          let Hf := fresh "Hf" in
          destruct (m !! f) eqn:Hf;
          [ | cbn [bind ret raise]; intros [= <-]; left;
              split; [unfold campos_requeridos; cbn; tauto | exact Hf] ]
      | ret _ => intros; discriminate
      | _ =>
          let He := fresh "He" in
          destruct h eqn:He;
          [ cbn [bind ret raise]; intros [= ->];
            first
              [ exfalso;
                first [ exact (py_float_error _ _ _ He _ eq_refl)
                      | exact (truediv_error _ _ _ He _ eq_refl)
                      | exact (pow_error _ _ _ _ He _ eq_refl)
                      | exact (int_of_spec_error _ _ He _ eq_refl) ]
              | right; left; eexists; exact He
              | right; right; eexists; exact He ]
          | ]
      end
  end.

(** A [KeyError] leaving the [try] block comes from a required field that
    the payload lacks, or from a collaborator. *)
Lemma evaluate_body_KeyError E transform predict m k :
  evaluate_body E transform predict (JObj m) = inl (KeyError k) ->
  (In k campos_requeridos /\ m !! k = None)
  \/ (exists x, transform x = inl (KeyError k))
  \/ (exists x, predict x = inl (KeyError k)).
Proof.
  unfold evaluate_body, float_field, getitem. cbv zeta.
  repeat trace_step m.
Qed.

(** X8. When the collaborators raise no [KeyError] of their own, a
    missing-field response always names a required field that the payload
    does lack; a payload with all thirteen fields is never answered 400. *)
Theorem missing_field_is_sound E m transform predict msg :
  scaler E = Some transform -> model E = Some predict ->
  sin_KeyError transform -> sin_KeyError predict ->
  evaluate_risk E (JObj m) = MissingField msg ->
  exists k,
    In k campos_requeridos /\ m !! k = None /\ msg = falta_el_campo E k.
Proof.
  intros Htr Hpr Ktr Kpr. unfold evaluate_risk. rewrite Htr, Hpr.
  destruct (evaluate_body E transform predict (JObj m)) as [e|r] eqn:Hb;
    [|discriminate].
  destruct e; try discriminate. intros [= <-].
  apply evaluate_body_KeyError in Hb as [[Hin Hm] | [[x Hx] | [x Hx]]].
  - exists k. auto.
  - exfalso. eapply Ktr. exact Hx.
  - exfalso. eapply Kpr. exact Hx.
Qed.

Lemma missing_field_is_sound_witness :
  exists k,
    In k campos_requeridos /\ Ejemplo.sin_hdl !! k = None
    /\ "Falta el campo en los datos: 'colesterol_hdl'"
       = falta_el_campo (Ejemplo.entorno_fijo 0.6999) k.
Proof.
  apply (missing_field_is_sound (Ejemplo.entorno_fijo 0.6999) Ejemplo.sin_hdl
           (fun v => ret v) (fun _ => ret (Numpy.de_float 0.6999)));
    first [ reflexivity
          | intros x k; discriminate
          | vm_compute; reflexivity ].
Defined.

(** X9. Fields other than the thirteen required ones are ignored: two
    payloads that agree on the required fields get the same response. *)
Theorem extra_fields_ignored E (m m' : gmap string json) :
  (forall k, In k campos_requeridos -> m !! k = m' !! k) ->
  evaluate_risk E (JObj m) = evaluate_risk E (JObj m').
Proof.
  intros H. unfold evaluate_risk.
  destruct (model E) as [pr|]; [|reflexivity].
  destruct (scaler E) as [tr|]; [|reflexivity].
  assert (evaluate_body E tr pr (JObj m) = evaluate_body E tr pr (JObj m'))
    as ->; [|reflexivity].
  unfold evaluate_body, float_field, getitem.
  repeat match goal with
         | |- context [m !! ?k] =>
             rewrite (H k) by (unfold campos_requeridos; cbn; tauto)
         end.
  reflexivity.
Qed.

Lemma extra_fields_ignored_witness :
  evaluate_risk (Ejemplo.entorno_fijo 0.6999) (JObj Ejemplo.con_extra)
  = evaluate_risk (Ejemplo.entorno_fijo 0.6999) (JObj Ejemplo.paciente).
Proof.
  apply extra_fields_ignored. intros k Hk.
  unfold Ejemplo.con_extra. apply lookup_insert_ne.
  intros <-. revert Hk. unfold campos_requeridos. cbn.
  intros H. repeat (destruct H as [H|H]; [discriminate H|]). exact H.
Defined.

Lemma py_float_ext E E' v :
  float_of_str E = float_of_str E' -> py_float E v = py_float E' v.
Proof. intros H. destruct v; cbn; try reflexivity. rewrite H. reflexivity. Qed.

Lemma float_field_ext E E' (m m' : gmap string json) k :
  float_of_str E = float_of_str E' -> m !! k = m' !! k ->
  float_field E (JObj m) k = float_field E' (JObj m') k.
Proof.
  intros HE Hk. unfold float_field, getitem. rewrite Hk.
  destruct (m' !! k); cbn [bind ret raise]; [apply py_float_ext, HE|].
  reflexivity.
Qed.

Lemma getitem_ext (m m' : gmap string json) k :
  m !! k = m' !! k -> getitem (JObj m) k = getitem (JObj m') k.
Proof. intros Hk. unfold getitem. rewrite Hk. reflexivity. Qed.

(** X10. The four rule entries of a report depend only on the nine fields
    the rules read: two successful evaluations whose payloads agree on
    them carry the same hypertension, diabetes, dyslipidemia and lifestyle
    entries, whatever the model, the scaler, the age, the sex, the height
    and the weight. *)
Theorem rule_entries_independent E E' (m m' : gmap string json) r r' :
  float_of_str E = float_of_str E' ->
  (forall k, In k Bandas.campos_reglas -> m !! k = m' !! k) ->
  evaluate_risk E (JObj m) = Success r ->
  evaluate_risk E' (JObj m') = Success r' ->
  tail (probabilidades_enfermedades r)
  = tail (probabilidades_enfermedades r').
Proof.
  intros HE Hm Hr Hr'.
  apply evaluate_risk_Success in Hr as (raw & c & Hc & ->).
  apply evaluate_risk_Success in Hr' as (raw' & c' & Hc' & ->).
  destruct Hc as (pct & s & d & g & l & h & t & f & a & al & Hc).
  destruct Hc as (_ & Hs & Hd & Hg & Hl & Hh & Ht & Hf & Ha & Hal & ->).
  destruct Hc' as (pct' & s' & d' & g' & l' & h' & t' & f' & a' & al' & Hc').
  destruct Hc' as (_ & Hs' & Hd' & Hg' & Hl' & Hh' & Ht' & Hf' & Ha' & Hal'
                   & ->).
  assert (forall k, In k Bandas.campos_reglas ->
            float_field E (JObj m) k = float_field E' (JObj m') k) as HF
    by (intros k Hk; apply float_field_ext; auto).
  assert (forall k, In k Bandas.campos_reglas ->
            getitem (JObj m) k = getitem (JObj m') k) as HG
    by (intros k Hk; apply getitem_ext; auto).
  rewrite HF in Hs, Hd, Hg, Hl, Hh, Ht
    by (unfold Bandas.campos_reglas; cbn; tauto).
  rewrite HG in Hf, Ha, Hal by (unfold Bandas.campos_reglas; cbn; tauto).
  unfold ret in *.
  assert (s = s') as -> by congruence.
  assert (d = d') as -> by congruence.
  assert (g = g') as -> by congruence.
  assert (l = l') as -> by congruence.
  assert (h = h') as -> by congruence.
  assert (t = t') as -> by congruence.
  assert (f = f') as -> by congruence.
  assert (a = a') as -> by congruence.
  assert (al = al') as -> by congruence.
  reflexivity.
Qed.

Lemma rule_entries_independent_witness :
  tail (probabilidades_enfermedades Ejemplo.informe_paciente)
  = tail (probabilidades_enfermedades Ejemplo.informe_otro_perfil).
Proof.
  apply (rule_entries_independent (Ejemplo.entorno_fijo 0.6999)
           (Ejemplo.entorno_fijo 0.25) Ejemplo.paciente Ejemplo.otro_perfil).
  - reflexivity.
  - intros k Hk. unfold Bandas.campos_reglas in Hk. cbn in Hk.
    repeat (destruct Hk as [<-|Hk]; [vm_compute; reflexivity|]).
    destruct Hk.
  - vm_compute. reflexivity.
  - vm_compute. reflexivity.
Defined.

(** X11. A height whose square is zero is answered with the internal error
    for [ZeroDivisionError], whatever the other fields hold or lack. *)
Theorem zero_height_is_internal_error E m transform predict
    altura_cm altura_m peso_kg altura_m2 :
  scaler E = Some transform -> model E = Some predict ->
  float_field E (JObj m) "altura_cm" = ret altura_cm ->
  truediv altura_cm 100 = ret altura_m ->
  float_field E (JObj m) "peso_kg" = ret peso_kg ->
  float_pow E altura_m 2 = Some altura_m2 ->
  PrimFloat.eqb altura_m2 0 = true ->
  evaluate_risk E (JObj m) = InternalError ZeroDivisionError.
Proof.
  intros Htr Hpr Ha Ham Hp Hpow Hz.
  unfold evaluate_risk. rewrite Htr, Hpr.
  unfold evaluate_body. rewrite Ha. cbn [bind ret]. rewrite Ham.
  cbn [bind ret]. rewrite Hp. cbn [bind ret].
  unfold pow. rewrite Hpow. cbn [bind ret].
  unfold truediv at 1. rewrite Hz. reflexivity.
Qed.

Lemma zero_height_is_internal_error_witness :
  evaluate_risk (Ejemplo.entorno_fijo 0.6999) (JObj Ejemplo.altura_cero)
  = InternalError ZeroDivisionError.
Proof.
  apply (zero_height_is_internal_error (Ejemplo.entorno_fijo 0.6999)
           Ejemplo.altura_cero (fun v => ret v)
           (fun _ => ret (Numpy.de_float 0.6999))
           0%float 0%float 70%float 0%float);
    vm_compute; reflexivity.
Defined.

End MoreHandlerFacts.

(** * Loading the resources *)

Section LoadFacts.

Import Handler Recursos.

(** X12. [load_resources] is idempotent: after a call that returned
    normally both globals are set, and a further call, whatever the
    artefacts then are, changes nothing and raises nothing. *)
Theorem load_resources_idempotent A E E1 :
  load_resources A E = (E1, None) ->
  model E1 <> None /\ scaler E1 <> None
  /\ forall A', load_resources A' E1 = (E1, None).
Proof.
  unfold load_resources.
  destruct E as [fs fp rs sc mo]. cbn [model scaler].
  destruct mo as [f|]; [|destruct (load_model A) as [e|f]];
    cbn [set_model model scaler float_of_str float_pow repr_str];
    try discriminate;
    (destruct sc as [g|]; [|destruct (joblib_load A) as [e|g]]);
    cbn [set_scaler model scaler float_of_str float_pow repr_str];
    try discriminate; intros [= <-]; cbn [model scaler];
    repeat split; try discriminate; intros A'; reflexivity.
Qed.

Lemma load_resources_idempotent_witness :
  model EjemploCarga.despues <> None
  /\ scaler EjemploCarga.despues <> None
  /\ forall A',
       load_resources A' EjemploCarga.despues = (EjemploCarga.despues, None).
Proof.
  apply (load_resources_idempotent EjemploCarga.artefactos_ok
           EjemploCarga.antes EjemploCarga.despues).
  reflexivity.
Defined.

(** X13. [load_resources] never replaces a resource that is already
    loaded and never touches the rest of the environment, whether it
    returns or raises. *)
Theorem load_resources_keeps_loaded A E :
  let E1 := fst (load_resources A E) in
  (forall f, model E = Some f -> model E1 = Some f)
  /\ (forall g, scaler E = Some g -> scaler E1 = Some g)
  /\ float_of_str E1 = float_of_str E
  /\ float_pow E1 = float_pow E
  /\ repr_str E1 = repr_str E.
Proof.
  cbv zeta. unfold load_resources.
  destruct E as [fs fp rs sc mo]. cbn [model scaler].
  destruct mo as [f|]; [|destruct (load_model A) as [e|f]];
    cbn [set_model model scaler float_of_str float_pow repr_str fst];
    (destruct sc as [g|]; [|destruct (joblib_load A) as [e'|g]]);
    cbn [set_model set_scaler model scaler float_of_str float_pow repr_str fst];
    repeat split; intros; congruence.
Qed.

(** X14. Before the first load every request is answered that the model
    is unavailable; after a load that returned normally no request is. *)
Theorem load_resources_enables_handler A E E1 data :
  load_resources A (sin_cargar E) = (E1, None) ->
  evaluate_risk (sin_cargar E) data = ModelUnavailable
  /\ evaluate_risk E1 data <> ModelUnavailable.
Proof.
  intros H. split; [reflexivity|].
  unfold load_resources, sin_cargar in H. cbn [model scaler] in H.
  destruct (load_model A) as [e|f]; [discriminate|].
  cbn [set_model model scaler float_of_str float_pow repr_str] in H.
  destruct (joblib_load A) as [e|g]; [discriminate|].
  injection H as <-.
  unfold evaluate_risk. cbn [set_scaler set_model model scaler].
  destruct (evaluate_body _ g f data) as [[]|]; discriminate.
Qed.

Lemma load_resources_enables_handler_witness :
  evaluate_risk EjemploCarga.antes JNull = ModelUnavailable
  /\ evaluate_risk EjemploCarga.despues JNull <> ModelUnavailable.
Proof.
  apply (load_resources_enables_handler EjemploCarga.artefactos_ok
           (Ejemplo.entorno_fijo 0.6999) EjemploCarga.despues JNull).
  reflexivity.
Defined.

End LoadFacts.

Section CoronaryFacts.

Import Rules Handler Spec.

(** What a report shows for the coronary condition, when the predictions
    of the model lie between 0 and 1: the percentage and the level of the
    first entry, with the bounds of [FloatProduct.porcentaje]. *)
Lemma coronary_entry E data r :
  modelo_en_unidad E -> evaluate_risk E data = Success r ->
  exists raw pct resto,
    probabilidades_enfermedades r
    = Entrada "Coronary Artery Disease" pct (nivel_riesgo_coronario raw)
        :: resto
    /\ 0 <= pct <= 100
    /\ (Numpy.ge_float raw 0.70 = true -> 70 <= pct)
    /\ (Numpy.ge_float raw 0.70 = false -> pct <= 69)
    /\ (Numpy.ge_float raw 0.30 = true -> 30 <= pct)
    /\ (Numpy.ge_float raw 0.30 = false -> pct <= 29).
Proof.
  intros Hm Hr.
  apply evaluate_risk_inv in Hr as (tr & pr & _ & Hpr & Hb).
  apply evaluate_body_inv in Hb as (raw & c & Hc & (x & y & _ & Hy) & ->).
  pose proof (Hm pr y raw Hpr Hy) as Hu.
  destruct (FloatProduct.porcentaje raw Hu)
    as (pct' & v & Hp' & _ & _ & _ & Hrange & Hbands).
  destruct Hc as (pct & s & d & g & l & h & t & f & a & al & Hc).
  destruct Hc as (Hp & _ & _ & _ & _ & _ & _ & _ & _ & _ & ->).
  assert (pct = pct') as -> by (unfold ret in *; congruence).
  exists raw, pct'. eexists.
  split; [reflexivity|]. split; [exact Hrange | exact Hbands].
Qed.

(** X15. Whenever the predictions of the model lie between 0 and 1, the
    coronary entry of every report carries a percentage between 0 and 100:
    the binary32 product by 100 never rounds above 100. *)
Theorem coronary_percentage_in_range E data r :
  modelo_en_unidad E -> evaluate_risk E data = Success r ->
  exists e resto,
    probabilidades_enfermedades r = e :: resto
    /\ enfermedad e = "Coronary Artery Disease"
    /\ 0 <= probabilidad_enfermedad e <= 100.
Proof.
  intros Hm Hr.
  destruct (coronary_entry E data r Hm Hr)
    as (raw & pct & resto & -> & Hrange & _).
  do 2 eexists. split; [reflexivity|]. split; [reflexivity | exact Hrange].
Qed.

Lemma coronary_percentage_in_range_witness :
  exists e resto,
    probabilidades_enfermedades Ejemplo.informe_paciente = e :: resto
    /\ enfermedad e = "Coronary Artery Disease"
    /\ 0 <= probabilidad_enfermedad e <= 100.
Proof.
  apply (coronary_percentage_in_range (Ejemplo.entorno_fijo 0.6999)
           (JObj Ejemplo.paciente) Ejemplo.informe_paciente).
  - intros pr x raw Hpr Hx. vm_compute in Hpr. injection Hpr as <-.
    vm_compute in Hx. injection Hx as <-. vm_compute. reflexivity.
  - vm_compute. reflexivity.
Defined.

(** X16. Whenever the predictions of the model lie between 0 and 1, the
    level of the coronary entry, taken from the raw prediction, agrees
    with the truncated percentage shown beside it: "Alto" exactly when the
    percentage is at least 70, "Moderado" from 30 to 69, "Bajo" up to 29.
    The binary32 thresholds and the binary32 product do not drift apart
    at the boundaries. *)
Theorem coronary_level_matches_percentage E data r :
  modelo_en_unidad E -> evaluate_risk E data = Success r ->
  exists e resto,
    probabilidades_enfermedades r = e :: resto
    /\ enfermedad e = "Coronary Artery Disease"
    /\ nivel_enfermedad e = Redondeo.nivel_de_pct (probabilidad_enfermedad e).
Proof.
  intros Hm Hr.
  destruct (coronary_entry E data r Hm Hr)
    as (raw & pct & resto & -> & _ & G70 & L70 & G30 & L30).
  do 2 eexists. split; [reflexivity|]. split; [reflexivity|].
  cbn [nivel_enfermedad probabilidad_enfermedad].
  unfold nivel_riesgo_coronario, Redondeo.nivel_de_pct.
  destruct (Numpy.ge_float raw 0.70) eqn:E70.
  - specialize (G70 eq_refl).
    destruct (Z.leb_spec 70 pct); [reflexivity | lia].
  - specialize (L70 eq_refl).
    destruct (Z.leb_spec 70 pct); [lia|].
    destruct (Numpy.ge_float raw 0.30) eqn:E30.
    + specialize (G30 eq_refl).
      destruct (Z.leb_spec 30 pct); [reflexivity | lia].
    + specialize (L30 eq_refl).
      destruct (Z.leb_spec 30 pct); [lia | reflexivity].
Qed.

Lemma coronary_level_matches_percentage_witness :
  exists e resto,
    probabilidades_enfermedades Ejemplo.informe_paciente = e :: resto
    /\ enfermedad e = "Coronary Artery Disease"
    /\ nivel_enfermedad e = Redondeo.nivel_de_pct (probabilidad_enfermedad e).
Proof.
  apply (coronary_level_matches_percentage (Ejemplo.entorno_fijo 0.6999)
           (JObj Ejemplo.paciente) Ejemplo.informe_paciente).
  - intros pr x raw Hpr Hx. vm_compute in Hpr. injection Hpr as <-.
    vm_compute in Hx. injection Hx as <-. vm_compute. reflexivity.
  - vm_compute. reflexivity.
Defined.







End CoronaryFacts.

Section LevelFacts.

Import Rules Handler Spec.

(** X18. The dyslipidemia rule answers "Alto" exactly when one of the
    three high tests fires (LDL >= 160, HDL < 40, total >= 240), and
    "Bajo" exactly when none of the five tests fires. *)
Theorem dislipidemia_level_tests (ldl hdl total : float) :
  let r := calcular_dislipidemia ldl hdl total in
  (nivel r = "Alto"
   <-> fge ldl 160 || flt hdl 40 || fge total 240 = true)
  /\ (nivel r = "Bajo"
      <-> fge ldl 160 || fge ldl 130 || flt hdl 40
          || fge total 240 || fge total 200 = false).
Proof.
  cbv zeta. rewrite dislipidemia_cascade.
  destruct (flt hdl 40), (fge ldl 160), (fge total 240), (fge ldl 130),
    (fge total 200); cbn; split; split; intros H;
    try reflexivity; discriminate H.
Qed.

Lemma rule_alto_ge_80 r :
  In r [Riesgo 92 "Alto"; Riesgo 75 "Moderado"; Riesgo 45 "Moderado";
        Riesgo 10 "Bajo"; Riesgo 95 "Alto"; Riesgo 90 "Alto";
        Riesgo 85 "Alto"; Riesgo 80 "Alto"; Riesgo 60 "Moderado";
        Riesgo 50 "Moderado"; Riesgo 30 "Bajo"] ->
  nivel r = "Alto" -> 80 <= probabilidad r.
Proof.
  cbn [In]. intros H.
  repeat (destruct H as [<-|H]; [cbn; intros E; try discriminate E; lia|]).
  destruct H.
Qed.

Lemma rule_values (s d g l h t : float) (f a al : json) :
  Forall (fun r =>
            In r [Riesgo 92 "Alto"; Riesgo 75 "Moderado";
                  Riesgo 45 "Moderado"; Riesgo 10 "Bajo"; Riesgo 95 "Alto";
                  Riesgo 90 "Alto"; Riesgo 85 "Alto"; Riesgo 80 "Alto";
                  Riesgo 60 "Moderado"; Riesgo 50 "Moderado";
                  Riesgo 30 "Bajo"])
    [ calcular_hipertension s d; calcular_diabetes g;
      calcular_dislipidemia l h t; calcular_riesgo_estilo_vida f a al ].
Proof.
  constructor; [|constructor; [|constructor; [|constructor; [|constructor]]]].
  - unfold calcular_hipertension.
    destruct (fge s 140 || fge d 90), (fge s 130 || fge d 80),
      (fge s 120 && flt d 80); cbn [In]; repeat (first [left; reflexivity | right]).
  - unfold calcular_diabetes.
    destruct (fge g 126), (fge g 100); cbn [In]; repeat (first [left; reflexivity | right]).
  - rewrite dislipidemia_cascade.
    destruct (flt h 40), (fge l 160), (fge t 240), (fge l 130), (fge t 200);
      cbn [In]; repeat (first [left; reflexivity | right]).
  - unfold calcular_riesgo_estilo_vida. cbv zeta.
    destruct (puntos_riesgo f a al =? 3), (puntos_riesgo f a al =? 2),
      (puntos_riesgo f a al =? 1); cbn [In]; repeat (first [left; reflexivity | right]).
Qed.

(** X19. In a report, a rule entry at level "Alto" forces an overall risk
    of at least 80. *)
Theorem high_rule_level_forces_overall E data r e :
  evaluate_risk E data = Success r ->
  In e (tail (probabilidades_enfermedades r)) ->
  nivel_enfermedad e = "Alto" ->
  80 <= riesgo_general r.
Proof.
  intros Hr. apply evaluate_risk_Success in Hr as (raw & c & Hc & ->).
  destruct Hc as (pct & s & d & g & l & h & t & f & a & al & Hc).
  destruct Hc as (_ & _ & _ & _ & _ & _ & _ & _ & _ & _ & ->).
  cbn [riesgo_general probabilidades_enfermedades tail].
  unfold max_probabilidad.
  cbn [coronaria hipertension diabetes dislipidemia estilo_vida].
  pose proof (rule_values s d g l h t f a al) as V.
  apply Forall_cons_iff in V as [V1 V].
  apply Forall_cons_iff in V as [V2 V].
  apply Forall_cons_iff in V as [V3 V].
  apply Forall_cons_iff in V as [V4 _].
  cbn [In]. intros [<-|[<-|[<-|[<-|[]]]]];
    cbn [nivel_enfermedad]; intros HA.
  - pose proof (rule_alto_ge_80 _ V1 HA). lia.
  - pose proof (rule_alto_ge_80 _ V2 HA). lia.
  - pose proof (rule_alto_ge_80 _ V3 HA). lia.
  - pose proof (rule_alto_ge_80 _ V4 HA). lia.
Qed.

Lemma high_rule_level_forces_overall_witness :
  80 <= riesgo_general Ejemplo.informe_paciente.
Proof.
  apply (high_rule_level_forces_overall (Ejemplo.entorno_fijo 0.6999)
           (JObj Ejemplo.paciente) Ejemplo.informe_paciente
           (Entrada "Hypertension" 92 "Alto")).
  - vm_compute. reflexivity.
  - cbn. left. reflexivity.
  - reflexivity.
Defined.

End LevelFacts.
